(** * Service directory: the existence guards and the four endpoints

    A shallow embedding of [src/sd/model.py] (the schema it declares, the
    mapped classes and the rows they persist) and of [src/sd/api.py] (the
    two error kinds, the guards [_assert_absent], [_must_find],
    [_namespaced_query], [_assert_absent_n], [_must_find_n], and the
    endpoints [service_create], [service_delete], [api_create],
    [api_delete]).

    A database is the list of its rows, each row tagged with the class it
    was mapped from; a session is the database it is bound to together with
    its unit of work (the objects added or deleted and not yet committed).
    Code that uses a session is written in a state-and-exception monad
    over the session.  The classes of [model.py] are mapped by one
    registry, which is configured when one of them is first queried or
    instantiated; a process remembers whether this has failed.

    [src/sd/cli.py] (the decorator [cmd], [check_status_code],
    [object_url], the commands, [help] and [main]) is embedded in the module
    [cli]: a run is given the configuration, [sys.argv] and the replies of
    the calls that leave the module, and yields the events it causes, in
    order, and its outcome. *)

From Stdlib Require Import String Ascii List ZArith Bool Lia.
Import ListNotations.
Open Scope string_scope.

(* ================================================================== *)
(** ** [model.py]: schema, mapped classes and objects *)
(* ================================================================== *)

(** [api.py] and [cli.py] reach the classes through the module [model]; the
    module of that name in the sources is [sd/model.py], embedded here. *)
Module model.

(** [str.lower], on the ASCII letters. *)
Definition lower_ascii (c : ascii) : ascii :=
  let n := nat_of_ascii c in
  if (65 <=? n)%nat && (n <=? 90)%nat then ascii_of_nat (n + 32) else c.

Fixpoint lower (s : string) : string :=
  match s with
  | EmptyString => EmptyString
  | String c r => String (lower_ascii c) (lower r)
  end.

(** A class derived from [Model]: its name and the names of the mapped
    properties it declares itself.  [id] and [label] come from [Model]. *)
Record Class : Type := mkClass {
  __name__ : string;
  own_properties : list string
}.

Definition properties (cls : Class) : list string :=
  "id" :: "label" :: own_properties cls.

(** [Model.__tablename__]: the class name in lower case. *)
Definition __tablename__ (cls : Class) : string := lower (__name__ cls).

(** *** Exceptions *)

(** Why the mapper refuses a request: [filter_by] on a property that the
    class does not have, or the use of a registry whose configuration has
    failed before. *)
Inductive InvalidRequest : Type :=
| no_property (entity property : string)
| mappers_failed (relationship secondary : string).

(** The exceptions that the code can raise.  [NotFoundError] and
    [DuplicateError] are the two [APIError] subclasses that [api.py]
    defines and raises; [AttributeError] and [TypeError] are Python's own;
    [NoForeignKeysError], [InvalidRequestError] and [IntegrityError] come
    from the mapper and the database under it. *)
Inductive exn : Type :=
| NotFoundError (msg : string)
| DuplicateError (msg : string)
| AttributeError (module_name attr : string)
| TypeError (msg : string)
| NoForeignKeysError (relationship secondary : string)
| InvalidRequestError (why : InvalidRequest)
| IntegrityError (table : string).

(** *** The schema *)

(** [Column(name, ..., ForeignKey(target), primary_key=, nullable=,
    unique=)]: what the declarations of [model.py] say of a column. *)
Record Column : Type := mkColumn {
  c_name : string;
  primary_key : bool;
  nullable : bool;
  unique : bool;
  foreign_key : option (string * string)
}.

Record Table : Type := mkTable {
  t_name : string;
  t_columns : list Column
}.

(** The joining table for services to apis: [service_id] refers to
    ["user.id"], [api_id] to ["api.id"]. *)
Definition service_api : Table :=
  mkTable "service_api"
    [mkColumn "service_id" false true false (Some ("user", "id"));
     mkColumn "api_id" false true false (Some ("api", "id"))].

(** The two columns that [Model] gives every class: [id], the primary
    key, and [label]; both [nullable=False], neither declared unique. *)
Definition Model_columns : list Column :=
  [mkColumn "id" true false false None;
   mkColumn "label" false false false None].

(** [relationship(argument, secondary=table, backref=name)]: a
    many-to-many, list-valued attribute. *)
Record Relationship : Type := mkRelationship {
  r_key : string;
  r_argument : string;
  r_secondary : Table;
  r_backref : string
}.

(** What the declarative base maps for a class: the class, the columns it
    adds to those of [Model], and its relationships. *)
Record Mapper : Type := mkMapper {
  mapped : Class;
  own_columns : list Column;
  relationships : list Relationship
}.

(** [class Service(Model)]: columns [service_type] and [endpoint], and
    the relationship [api] through [service_api]. *)
Definition Service : Class :=
  mkClass "Service" ["service_type"; "api"; "endpoint"].

(** [class API(Model)]: nothing but [id] and [label], and the back
    reference [api] that the relationship of [Service] puts on it. *)
Definition API : Class := mkClass "API" ["api"].

Definition Service_api : Relationship :=
  mkRelationship "api" "API" service_api "api".

Definition Service_mapper : Mapper :=
  mkMapper Service
    [mkColumn "service_type" false false false None;
     mkColumn "endpoint" false false false None]
    [Service_api].

Definition API_mapper : Mapper := mkMapper API [] [].

(** The classes mapped on [Base], in the order of the file. *)
Definition registry : list Mapper := [Service_mapper; API_mapper].

(** The mapped classes that the module defines, by attribute name. *)
Definition __dict__ : list (string * Class) :=
  [("Service", Service); ("API", API)].

(** *** Configuration of the mappers *)

(** Some column of the table has a foreign key to the target table. *)
Definition links (t : Table) (target : string) : bool :=
  existsb (fun c => match foreign_key c with
                    | Some (tbl, _) => String.eqb tbl target
                    | None => false
                    end) (t_columns t).

(** The join condition of a relationship through its secondary table:
    the secondary table must have a foreign key to the table of the class
    and one to the table of the class named by the argument (every class
    here derives from [Model], so its table is its name in lower case). *)
Definition join_condition (m : Mapper) (r : Relationship) : option exn :=
  if links (r_secondary r) (__tablename__ (mapped m))
     && links (r_secondary r) (lower (r_argument r))
  then None
  else Some (NoForeignKeysError (__name__ (mapped m) ++ "." ++ r_key r)
                                (t_name (r_secondary r))).

Fixpoint first_error {A : Type} (check : A -> option exn) (l : list A)
    : option exn :=
  match l with
  | [] => None
  | x :: r =>
      match check x with
      | Some e => Some e
      | None => first_error check r
      end
  end.

(** [configure_mappers()]: every relationship of every mapper of the
    registry is set up; the first that cannot be makes the call fail. *)
Definition configure_mappers (reg : list Mapper) : option exn :=
  first_error (fun m => first_error (join_condition m) (relationships m)) reg.

(** *** Objects *)

(** Values of mapped attributes other than [id] and [label]: a string
    column, an integer column, a reference to another row, given by the
    table and the primary key of that row, or the list of such references
    that a list-valued relationship holds. *)
Inductive Val : Type :=
| VInt (n : Z)
| VStr (s : string)
| VObj (table : string) (pk : option Z)
| VObjs (rows : list (string * option Z)).

(** An instance of a mapped class.  [id] is [None] until the row is
    inserted. *)
Record Obj : Type := mkObj {
  __class__ : Class;
  id : option Z;
  label : string;
  attrs : list (string * Val)
}.

(** The row an object stands for: its table and its primary key. *)
Definition ref (o : Obj) : Val := VObj (__tablename__ (__class__ o)) (id o).

(** The rows a list of objects stands for. *)
Definition refs (l : list Obj) : Val :=
  VObjs (map (fun o => (__tablename__ (__class__ o), id o)) l).

(** What is given for a list-valued attribute: one instance, or a list
    of instances. *)
Inductive Given : Type :=
| one (o : Obj)
| many (l : list Obj).

(** [self.<key> = value] for a relationship: the attribute takes a list;
    anything else is refused. *)
Definition assign (r : Relationship) (value : Given) : exn + Val :=
  match value with
  | many l => inr (refs l)
  | one o =>
      inl (TypeError ("Incompatible collection type: " ++
                      __name__ (__class__ o) ++ " is not list-like"))
  end.

(** [Service.__init__(self, label, service_type, api, endpoint)]: the
    four assignments, in order; [api] is what the caller gives, one
    instance of [API]. *)
Definition Service__init__ (label service_type : string) (api : Obj)
    (endpoint : string) : exn + Obj :=
  match assign Service_api (one api) with
  | inl e => inl e
  | inr v =>
      inr (mkObj Service None label
             [("service_type", VStr service_type); ("api", v);
              ("endpoint", VStr endpoint)])
  end.

(** [API.__init__(self, label)]. *)
Definition API__init__ (label : string) : Obj := mkObj API None label [].

(** *** Boolean equalities *)

Definition option_Z_eqb (a b : option Z) : bool :=
  match a, b with
  | Some x, Some y => Z.eqb x y
  | None, None => true
  | _, _ => false
  end.

Fixpoint rows_eqb (a b : list (string * option Z)) : bool :=
  match a, b with
  | [], [] => true
  | (t, k) :: a', (u, j) :: b' =>
      String.eqb t u && option_Z_eqb k j && rows_eqb a' b'
  | _, _ => false
  end.

Definition Val_eqb (v w : Val) : bool :=
  match v, w with
  | VInt a, VInt b => Z.eqb a b
  | VStr a, VStr b => String.eqb a b
  | VObj t a, VObj u b => String.eqb t u && option_Z_eqb a b
  | VObjs a, VObjs b => rows_eqb a b
  | _, _ => false
  end.

Fixpoint strings_eqb (a b : list string) : bool :=
  match a, b with
  | [], [] => true
  | x :: a', y :: b' => String.eqb x y && strings_eqb a' b'
  | _, _ => false
  end.

Definition Class_eqb (c d : Class) : bool :=
  String.eqb (__name__ c) (__name__ d)
  && strings_eqb (own_properties c) (own_properties d).

(** Attribute access on an instance, by name. *)
Fixpoint assoc {A : Type} (key : string) (l : list (string * A)) : option A :=
  match l with
  | [] => None
  | (k, v) :: r => if String.eqb key k then Some v else assoc key r
  end.

Definition getattr (o : Obj) (key : string) : option Val :=
  if String.eqb key "id" then option_map VInt (id o)
  else if String.eqb key "label" then Some (VStr (label o))
  else assoc key (attrs o).

Definition has_attr_value (key : string) (v : Val) (o : Obj) : bool :=
  match getattr o key with
  | Some w => Val_eqb w v
  | None => false
  end.

(** *** The database *)

(** The rows of all tables, in insertion order. *)
Definition Store : Type := list Obj.

Definition in_table (cls : Class) (o : Obj) : bool :=
  String.eqb (__tablename__ (__class__ o)) (__tablename__ cls).

Definition table (cls : Class) (db : Store) : list Obj :=
  filter (in_table cls) db.

(** Same table and same primary key. *)
Definition same_row (o r : Obj) : bool :=
  in_table (__class__ o) r && option_Z_eqb (id r) (id o).

(** The integers that an [Integer] primary key can hold. *)
Definition Integer_min : Z := (- 9223372036854775808)%Z.
Definition Integer_max : Z := 9223372036854775807%Z.

(** The integer primary key given to a new row of a table: one more than
    the largest in the table. *)
Definition max_id (rows : list Obj) : Z :=
  fold_right (fun o m => match id o with Some k => Z.max k m | None => m end)
             0%Z rows.

Definition next_id (cls : Class) (db : Store) : Z := (max_id (table cls db) + 1)%Z.

(** The row as the table would hold it: with the key it has, or the next
    one of the table. *)
Definition with_key (o : Obj) (db : Store) : Obj :=
  mkObj (__class__ o)
        (match id o with
         | Some k => Some k
         | None => Some (next_id (__class__ o) db)
         end)
        (label o) (attrs o).

(** The columns of the table of a class: those of [Model], then those
    that the class declares in [model.py]. *)
Definition columns_of (cls : Class) : list Column :=
  (Model_columns ++
   match find (fun m => Class_eqb (mapped m) cls) registry with
   | Some m => own_columns m
   | None => []
   end)%list.

(** A row violates the declaration of a column, given the rows of its
    table: no value where [nullable=False], or a value already there where
    the column is the primary key or is declared unique. *)
Definition violates (c : Column) (o : Obj) (rows : list Obj) : bool :=
  match getattr o (c_name c) with
  | None => negb (nullable c)
  | Some v =>
      (primary_key c || unique c) && existsb (has_attr_value (c_name c) v) rows
  end.

Definition in_range (o : Obj) : bool :=
  match id o with
  | Some k => (Integer_min <=? k)%Z && (k <=? Integer_max)%Z
  | None => true
  end.

(** The table takes the row. *)
Definition accepts (o : Obj) (db : Store) : bool :=
  in_range (with_key o db)
  && forallb (fun c => negb (violates c (with_key o db)
                                         (table (__class__ o) db)))
             (columns_of (__class__ o)).

(** INSERT: the row is appended if the table takes it; otherwise the
    database is as it was. *)
Definition insert (o : Obj) (db : Store) : Store :=
  if accepts o db then (db ++ [with_key o db])%list else db.

(** DELETE of the row an object stands for. *)
Definition remove (o : Obj) (db : Store) : Store :=
  filter (fun r => negb (same_row o r)) db.

(** *** Sessions *)

Inductive Pending : Type :=
| New (o : Obj)
| Deleted (o : Obj).

Definition flush_one (db : Store) (p : Pending) : Store :=
  match p with
  | New o => insert o db
  | Deleted o => remove o db
  end.

(** What a commit writes: the pending changes in order, or the error of
    the first row that its table does not take. *)
Fixpoint flush (ps : list Pending) (db : Store) : exn + Store :=
  match ps with
  | [] => inr db
  | New o :: r =>
      if accepts o db then flush r (insert o db)
      else inl (IntegrityError (__tablename__ (__class__ o)))
  | Deleted o :: r => flush r (remove o db)
  end.

(** A session: the database it is bound to, its unit of work, and
    whether the configuration of the mappers has already failed in the
    process that made the session. *)
Record SessionState : Type := mkSession {
  bind : Store;
  pending : list Pending;
  configure_failed : bool
}.

(** What the session's queries see: the database with its own pending
    changes flushed. *)
Definition visible (s : SessionState) : Store :=
  fold_left flush_one (pending s) (bind s).

(** [Session()] in a process that has not used its mappers yet: a new
    session on the database, with nothing pending. *)
Definition Session (db : Store) : SessionState := mkSession db [] false.

End model.

(* ================================================================== *)
(** ** [api.py]: errors, guards and endpoints *)
(* ================================================================== *)

Module api.
Import model.

(** The [status_code] class attribute, for the exceptions that have one. *)
Definition status_code (e : exn) : option Z :=
  match e with
  | NotFoundError _ => Some 404%Z
  | DuplicateError _ => Some 409%Z
  | _ => None
  end.

(** *** Code that runs against a session *)

Definition M (A : Type) : Type := SessionState -> (exn + A) * SessionState.

Definition ret {A : Type} (a : A) : M A := fun s => (inr a, s).

Definition raise {A : Type} (e : exn) : M A := fun s => (inl e, s).

Definition mbind {A B : Type} (m : M A) (f : A -> M B) : M B :=
  fun s =>
    match m s with
    | (inl e, s') => (inl e, s')
    | (inr a, s') => f a s'
    end.

Declare Scope session_scope.
Delimit Scope session_scope with session.
Notation "x <- c1 ;; c2" := (mbind c1 (fun x => c2))
  (at level 100, c1 at next level, right associativity) : session_scope.
Notation "c1 ;; c2" := (mbind c1 (fun _ => c2))
  (at level 100, right associativity) : session_scope.
Open Scope session_scope.

(** The class is one of those that [model.py] maps. *)
Definition mapped_in_model (cls : Class) : bool :=
  existsb (fun m => Class_eqb (mapped m) cls) registry.

(** The first use of a class that [model.py] maps configures the mappers
    of the registry.  The first failure raises the error of the
    relationship that cannot be set up; once that has happened in the
    process, every use raises [InvalidRequestError].  A class mapped
    elsewhere has a registry of its own. *)
Definition configure (cls : Class) : M unit :=
  fun s =>
    if mapped_in_model cls then
      match configure_mappers registry with
      | Some (NoForeignKeysError relationship secondary) =>
          if configure_failed s
          then (inl (InvalidRequestError
                       (mappers_failed relationship secondary)), s)
          else (inl (NoForeignKeysError relationship secondary), s)
      | Some e => (inl e, s)
      | None => (inr tt, s)
      end
    else (inr tt, s).

(** [session.query(cls)], [.filter_by(key=v)] and [.first()]. *)
Record Query : Type := mkQuery {
  entity : Class;
  rows : list Obj
}.

Definition query (cls : Class) : M Query :=
  configure cls ;;
  fun s => (inr (mkQuery cls (table cls (visible s))), s).

Definition filter_by (q : Query) (key : string) (v : Val) : M Query :=
  if existsb (String.eqb key) (properties (entity q))
  then ret (mkQuery (entity q) (filter (has_attr_value key v) (rows q)))
  else raise (InvalidRequestError (no_property (__name__ (entity q)) key)).

Definition first (q : Query) : M (option Obj) := ret (hd_error (rows q)).

(** [session.add(obj)], [session.delete(obj)] and [session.commit()]. *)
Definition add (o : Obj) : M unit :=
  fun s => (inr tt, mkSession (bind s) (pending s ++ [New o])%list
                              (configure_failed s)).

Definition delete (o : Obj) : M unit :=
  fun s => (inr tt, mkSession (bind s) (pending s ++ [Deleted o])%list
                              (configure_failed s)).

Definition commit : M unit :=
  fun s =>
    match flush (pending s) (bind s) with
    | inr db => (inr tt, mkSession db [] (configure_failed s))
    | inl e => (inl e, mkSession (bind s) [] (configure_failed s))
    end.

(** [model.<name>]: attribute access on the module [model]. *)
Definition model_attr (name : string) : M Class :=
  match assoc name model.__dict__ with
  | Some cls => ret cls
  | None => raise (AttributeError "model" name)
  end.

(** [cls(...)]: a new instance of a mapped class; the mappers are
    configured before [__init__] runs. *)
Definition new (cls : Class) (init : exn + Obj) : M Obj :=
  configure cls ;;
  match init with
  | inl e => raise e
  | inr o => ret o
  end.

(** *** Helper functions *)

Definition _assert_absent (cls : Class) (name : string) : M unit :=
  q <- query cls ;;
  q <- filter_by q "label" (VStr name) ;;
  obj <- first q ;;
  match obj with
  | Some _ =>
      raise (DuplicateError (__name__ cls ++ " " ++ name ++ " already exists."))
  | None => ret tt
  end.

Definition _must_find (cls : Class) (name : string) : M Obj :=
  q <- query cls ;;
  q <- filter_by q "label" (VStr name) ;;
  obj <- first q ;;
  match obj with
  | None =>
      raise (NotFoundError (__name__ cls ++ " " ++ name ++ " does not exist."))
  | Some obj => ret obj
  end.

Definition _namespaced_query (obj_outer : Obj) (cls_inner : Class)
    (name_inner : string) : M (option Obj) :=
  q <- query cls_inner ;;
  q <- filter_by q "owner" (ref obj_outer) ;;
  q <- filter_by q "label" (VStr name_inner) ;;
  first q.

Definition _assert_absent_n (obj_outer : Obj) (cls_inner : Class)
    (name_inner : string) : M unit :=
  obj_inner <- _namespaced_query obj_outer cls_inner name_inner ;;
  match obj_inner with
  | Some _ =>
      raise (DuplicateError
               (__name__ cls_inner ++ " " ++ name_inner ++ " on " ++
                __name__ (__class__ obj_outer) ++ " " ++ label obj_outer ++
                " already exists"))
  | None => ret tt
  end.

Definition _must_find_n (obj_outer : Obj) (cls_inner : Class)
    (name_inner : string) : M Obj :=
  obj_inner <- _namespaced_query obj_outer cls_inner name_inner ;;
  match obj_inner with
  | None =>
      raise (NotFoundError
               (__name__ cls_inner ++ " " ++ name_inner ++ " on " ++
                __name__ (__class__ obj_outer) ++ " " ++ label obj_outer ++
                " does not exist."))
  | Some obj_inner => ret obj_inner
  end.

(** *** Endpoints *)

(** The process that serves the requests: its database, and whether the
    configuration of its mappers has failed. *)
Record Process : Type := mkProcess {
  database : Store;
  mappers_failed_before : bool
}.

(** What a call of an endpoint leaves: its outcome and the process. *)
Definition Outcome : Type := ((exn + unit) * Process)%type.

(** The error came out of the configuration of the mappers. *)
Definition configuration_error (r : exn + unit) : bool :=
  match r with
  | inl (NoForeignKeysError _ _) => true
  | _ => false
  end.

(** [model.Session()] in a process: a new session on its database. *)
Definition session_of (p : Process) : SessionState :=
  mkSession (database p) [] (mappers_failed_before p).

(** The body of an endpoint runs on a session of its own
    ([db = model.Session()]); what the session has not committed when the
    body ends is lost with it.  A failure of the configuration stays with
    the process. *)
Definition in_session (body : M unit) (p : Process) : Outcome :=
  let (r, s) := body (session_of p) in
  (r, mkProcess (bind s) (mappers_failed_before p || configuration_error r)).

Definition service_create (service service_type api endpoint : string)
    : Process -> Outcome :=
  in_session (
    cls <- model_attr "Service" ;;
    _assert_absent cls service ;;
    cls <- model_attr "API" ;;
    api <- _must_find cls api ;;
    cls <- model_attr "Service" ;;
    service <- new cls (Service__init__ service service_type api endpoint) ;;
    add service ;;
    commit).

Definition service_delete (service : string) : Process -> Outcome :=
  in_session (
    cls <- model_attr "Service" ;;
    service <- _must_find cls service ;;
    delete service ;;
    commit).

Definition api_create (api : string) : Process -> Outcome :=
  in_session (
    cls <- model_attr "Group" ;;
    _assert_absent cls api ;;
    cls <- model_attr "API" ;;
    api <- new cls (inr (API__init__ api)) ;;
    add api ;;
    commit).

Definition api_delete (api : string) : Process -> Outcome :=
  in_session (
    cls <- model_attr "API" ;;
    api <- _must_find cls api ;;
    delete api ;;
    commit).

End api.

(* ================================================================== *)
(** ** [cli.py]: the command line tool *)
(* ================================================================== *)

From Stdlib Require Import DecimalString.

Module cli.

(** *** Strings, as Python 2 has them *)

(** The end of a line. *)
Definition nl : string := String (ascii_of_nat 10) EmptyString.

(** [str.upper], on the ASCII letters. *)
Definition upper_ascii (c : ascii) : ascii :=
  let n := nat_of_ascii c in
  if (97 <=? n)%nat && (n <=? 122)%nat then ascii_of_nat (n - 32) else c.

Fixpoint upper (s : string) : string :=
  match s with
  | EmptyString => EmptyString
  | String c r => String (upper_ascii c) (upper r)
  end.

(** [sep.join(l)]. *)
Fixpoint join (sep : string) (l : list string) : string :=
  match l with
  | [] => ""
  | x :: r =>
      match r with
      | [] => x
      | _ :: _ => x ++ sep ++ join sep r
      end
  end.

(** ['%d' % n]. *)
Definition format_d (n : Z) : string := NilZero.string_of_int (Z.to_int n).

(** [sorted], on strings. *)
Fixpoint insert_sorted (x : string) (l : list string) : list string :=
  match l with
  | [] => [x]
  | y :: r => if String.leb x y then x :: l else y :: insert_sorted x r
  end.

Definition sorted (l : list string) : list string :=
  fold_right insert_sorted [] l.

(** [urllib.quote(s, '')] of Python 2: letters, digits, and the characters
    "_", "." and "-" stay; every other byte becomes "%" and two upper case
    hexadecimal digits. *)
Definition always_safe (c : ascii) : bool :=
  let n := nat_of_ascii c in
  ((65 <=? n) && (n <=? 90) || (97 <=? n) && (n <=? 122) ||
   (48 <=? n) && (n <=? 57) ||
   (n =? 95) || (n =? 46) || (n =? 45))%nat.

Definition hex_digit (n : nat) : ascii :=
  if (n <? 10)%nat then ascii_of_nat (48 + n) else ascii_of_nat (55 + n).

Definition quote_byte (c : ascii) : string :=
  if always_safe c then String c EmptyString
  else
    let n := nat_of_ascii c in
    String "%" (String (hex_digit (n / 16))
                  (String (hex_digit (n mod 16)) EmptyString)).

Fixpoint quote (s : string) : string :=
  match s with
  | EmptyString => EmptyString
  | String c r => quote_byte c ++ quote r
  end.

(** *** What a command does *)

Inductive exn : Type :=
| TypeError
| NameError (name : string)
| KeyError (key : string)
| IndexError
| ValueError (msg : string)
| AttributeError (attr : string)
| NoSectionError (section : string)
| NoOptionError (section option : string)
| RuntimeError
| RequestException.

(** The reply of the server, as [check_status_code] reads it. *)
Record Response : Type := mkResponse {
  status_code : Z;
  text : string
}.

(** What a run does to the world outside, in order. *)
Inductive Event : Type :=
| stderr_write (s : string)
| stdout_write (s : string)
| requests_put (url : string) (data : list (string * string))
| requests_delete (url : string)
| logging_basicConfig (level : Z)
| logger_warning (msg : string)
| model_init_db (create : bool)
| http_serve (debug : bool).

(** What a run is given: the configuration loaded by [config.load()]
    (the value of each option that has one, and the sections that exist),
    [sys.argv], and what the calls that leave the module come back with. *)
Record Env : Type := mkEnv {
  cfg : string -> string -> option string;
  has_section : string -> bool;
  argv : list string;
  put_reply : string -> list (string * string) -> exn + Response;
  delete_reply : string -> exn + Response;
  init_db_reply : bool -> exn + unit;
  serve_reply : bool -> exn + unit
}.

Definition IO (A : Type) : Type := Env -> list Event * (exn + A).

Definition ret {A : Type} (a : A) : IO A := fun _ => ([], inr a).

Definition raise {A : Type} (e : exn) : IO A := fun _ => ([], inl e).

Definition mbind {A B : Type} (m : IO A) (f : A -> IO B) : IO B :=
  fun env =>
    match m env with
    | (t, inl e) => (t, inl e)
    | (t, inr a) => let (t', r) := f a env in ((t ++ t')%list, r)
    end.

Declare Scope io_scope.
Delimit Scope io_scope with io.
Notation "x <- c1 ;; c2" := (mbind c1 (fun x => c2))
  (at level 100, c1 at next level, right associativity) : io_scope.
Notation "c1 ;; c2" := (mbind c1 (fun _ => c2))
  (at level 100, right associativity) : io_scope.
Open Scope io_scope.

Definition emit (ev : Event) : IO unit := fun _ => ([ev], inr tt).

Definition ask : IO Env := fun env => ([], inr env).

Definition lift {A : Type} (r : exn + A) : IO A := fun _ => ([], r).

(** [try: body except TypeError: handler]. *)
Definition try_except_TypeError (body handler : IO unit) : IO unit :=
  fun env =>
    match body env with
    | (t, inl TypeError) => let (t', r) := handler env in ((t ++ t')%list, r)
    | (t, r) => (t, r)
    end.

(** [for x in l: body(x)]. *)
Fixpoint for_each {A : Type} (l : list A) (body : A -> IO unit) : IO unit :=
  match l with
  | [] => ret tt
  | x :: r => body x ;; for_each r body
  end.

(** [cfg.has_option], [cfg.get] and [cfg.getboolean]. *)
Definition cfg_has_option (section option : string) : IO bool :=
  env <- ask ;;
  ret (match cfg env section option with Some _ => true | None => false end).

Definition cfg_get (section option : string) : IO string :=
  env <- ask ;;
  match cfg env section option with
  | Some v => ret v
  | None =>
      if has_section env section then raise (NoOptionError section option)
      else raise (NoSectionError section)
  end.

Definition cfg_getboolean (section option : string) : IO bool :=
  v <- cfg_get section option ;;
  let w := model.lower v in
  if existsb (String.eqb w) ["1"; "yes"; "true"; "on"] then ret true
  else if existsb (String.eqb w) ["0"; "no"; "false"; "off"] then ret false
  else raise (ValueError ("Not a boolean: " ++ v)).

(** [requests.put(url, data=data)] and [requests.delete(url)]. *)
Definition put (url : string) (data : list (string * string)) : IO Response :=
  emit (requests_put url data) ;;
  env <- ask ;;
  lift (put_reply env url data).

Definition delete (url : string) : IO Response :=
  emit (requests_delete url) ;;
  env <- ask ;;
  lift (delete_reply env url).

(** *** Functions and the decorator [cmd] *)

(** What [inspect.getargspec] and the decorator read of a function. *)
Record Signature : Type := mkSignature {
  __name__ : string;
  args : list string;
  varargs : option string;
  __doc__ : string
}.

(** A call [f( *args )] with positional arguments: a function without
    [*varargs] takes as many as it has parameters, one with [*varargs] at
    least as many; otherwise Python raises [TypeError]. *)
Definition accepts (f : Signature) (actual : list string) : bool :=
  match varargs f with
  | None => Nat.eqb (length actual) (length (args f))
  | Some _ => Nat.leb (length (args f)) (length actual)
  end.

Definition call (f : Signature) (body : list string -> IO unit)
    (actual : list string) : IO unit :=
  if accepts f actual then body actual else raise TypeError.

Definition get_usage (f : Signature) : string :=
  let showee := __name__ f :: map (fun name => "<" ++ name ++ ">") (args f) in
  let showee :=
    match varargs f with
    | Some v => app showee ["<" ++ v ++ "...>"]
    | None => showee
    end in
  join " " showee.

(** [d[key] = value] and [d[key]] on a dictionary. *)
Fixpoint dict_set {A : Type} (key : string) (value : A)
    (d : list (string * A)) : list (string * A) :=
  match d with
  | [] => [(key, value)]
  | (k, v) :: r =>
      if String.eqb key k then (k, value) :: r
      else (k, v) :: dict_set key value r
  end.

Definition dict_get {A : Type} (d : list (string * A)) (key : string) : IO A :=
  match model.assoc key d with
  | Some v => ret v
  | None => raise (KeyError key)
  end.

Definition keys {A : Type} (d : list (string * A)) : list string := map fst d.

(** The functions that the module decorates with [cmd], in the order of
    the file. *)
Definition sig_serve : Signature :=
  mkSignature "serve" [] None "Start the HaaS API server".
Definition sig_init_db : Signature :=
  mkSignature "init_db" [] None "Initialize the database".
Definition sig_service_create : Signature :=
  mkSignature "service_create" ["service"; "service_type"; "api"; "endpoint"]
    None "Create a service".
Definition sig_service_delete : Signature :=
  mkSignature "service_delete" ["project"] None "Delete a service".
Definition sig_api_create : Signature :=
  mkSignature "api_create" ["api"] None "Register an API".
Definition sig_api_delete : Signature :=
  mkSignature "api_delete" ["api"] None "Remove an API".
Definition sig_help : Signature :=
  mkSignature "help" [] (Some "commands")
    "Display usage of all following <commands>, or of all commands if none are given".

Definition decorated : list Signature :=
  [sig_serve; sig_init_db; sig_service_create; sig_service_delete;
   sig_api_create; sig_api_delete; sig_help].

(** [usage_dict], and the [__doc__] of the entries of [command_dict], once
    the module is loaded. *)
Definition usage_dict : list (string * string) :=
  fold_left (fun d f => dict_set (__name__ f) (get_usage f) d) decorated [].

Definition doc_dict : list (string * string) :=
  fold_left (fun d f => dict_set (__name__ f) (__doc__ f) d) decorated [].

(** *** The functions *)

Definition check_status_code (response : Response) : IO unit :=
  if (status_code response <? 200)%Z || (status_code response >=? 300)%Z then
    emit (stderr_write ("Unexpected status code: " ++
                        format_d (status_code response) ++ nl)) ;;
    emit (stderr_write ("Response text:" ++ nl)) ;;
    emit (stderr_write (text response ++ nl))
  else
    emit (stdout_write (text response ++ nl)).

Definition object_url (actual : list string) : IO string :=
  url <- cfg_get "client" "endpoint" ;;
  ret (fold_left (fun url arg => url ++ "/" ++ quote arg) actual url).

Definition help_body (commands : list string) : IO unit :=
  commands <-
    match commands with
    | [] =>
        env <- ask ;;
        argv0 <- match argv env with
                 | a :: _ => ret a
                 | [] => raise IndexError
                 end ;;
        emit (stderr_write ("Usage: " ++ argv0 ++ (" <command> <arguments...> " ++ nl))) ;;
        emit (stderr_write ("Where <command> is one of:" ++ nl)) ;;
        ret (sorted (keys doc_dict))
    | _ :: _ => ret commands
    end ;;
  for_each commands (fun name =>
    usage <- dict_get usage_dict name ;;
    emit (stderr_write ("  " ++ usage ++ nl)) ;;
    doc <- dict_get doc_dict name ;;
    emit (stderr_write ("      " ++ doc ++ nl))).

(** [help] as the module binds it: the decorated function.  Its handler
    calls [help] again; [depth] bounds the nesting of these calls, as the
    interpreter does. *)
Fixpoint help_wrapped (depth : nat) (actual : list string) : IO unit :=
  try_except_TypeError
    (call sig_help help_body actual)
    (emit (stderr_write ("Wrong number of arguements.  Usage:" ++ nl)) ;;
     match depth with
     | O => raise RuntimeError
     | S d => help_wrapped d [__name__ sig_help]
     end).

Definition help : list string -> IO unit := help_wrapped 1000.

(** [wrapped], for a decorated function. *)
Definition wrapped (f : Signature) (body : list string -> IO unit)
    (actual : list string) : IO unit :=
  try_except_TypeError
    (call f body actual)
    (emit (stderr_write ("Wrong number of arguements.  Usage:" ++ nl)) ;;
     help [__name__ f]).

Definition serve (actual : list string) : IO unit :=
  has <- cfg_has_option "devel" "debug" ;;
  debug <- (if has : bool then cfg_getboolean "devel" "debug" else ret false) ;;
  emit (model_init_db false) ;;
  env <- ask ;;
  lift (init_db_reply env false) ;;
  emit (http_serve debug) ;;
  lift (serve_reply env debug).

Definition init_db (actual : list string) : IO unit :=
  emit (model_init_db true) ;;
  env <- ask ;;
  lift (init_db_reply env true).

Definition service_create (actual : list string) : IO unit :=
  match actual with
  | [service; service_type; api; endpoint] =>
      url <- object_url ["service"; service] ;;
      response <- put url [("service_type", service_type); ("api", api);
                           ("endpoint", endpoint)] ;;
      check_status_code response
  | _ => raise TypeError
  end.

(** The parameter is [project]; the body reads [service], a name that
    nothing binds. *)
Definition service_delete (actual : list string) : IO unit :=
  match actual with
  | [project] =>
      service <- raise (NameError "service") ;;
      url <- object_url ["service"; service] ;;
      response <- delete url ;;
      check_status_code response
  | _ => raise TypeError
  end.

(** The body reads [password], a name that nothing binds, to build the
    data of the request. *)
Definition api_create (actual : list string) : IO unit :=
  match actual with
  | [api] =>
      url <- object_url ["api"; api] ;;
      password <- raise (NameError "password") ;;
      response <- put url [("password", password)] ;;
      check_status_code response
  | _ => raise TypeError
  end.

Definition api_delete (actual : list string) : IO unit :=
  match actual with
  | [api] =>
      url <- object_url ["api"; api] ;;
      response <- delete url ;;
      check_status_code response
  | _ => raise TypeError
  end.

(** [command_dict], once the module is loaded. *)
Definition command_dict : list (string * (list string -> IO unit)) :=
  fold_left (fun d fb => dict_set (__name__ (fst fb)) (snd fb) d)
    [(sig_serve, wrapped sig_serve serve);
     (sig_init_db, wrapped sig_init_db init_db);
     (sig_service_create, wrapped sig_service_create service_create);
     (sig_service_delete, wrapped sig_service_delete service_delete);
     (sig_api_create, wrapped sig_api_create api_create);
     (sig_api_delete, wrapped sig_api_delete api_delete);
     (sig_help, help)]
    [].

(** [getattr(logging, name)] for the names of levels. *)
Definition logging_level (name : string) : option Z :=
  model.assoc name
    [("CRITICAL", 50%Z); ("FATAL", 50%Z); ("ERROR", 40%Z); ("WARNING", 30%Z);
     ("WARN", 30%Z); ("INFO", 20%Z); ("DEBUG", 10%Z)].

Definition LOG_SET : list string :=
  ["CRITICAL"; "DEBUG"; "ERROR"; "FATAL"; "INFO"; "WARN"; "WARNING"].

Definition main : IO unit :=
  has <- cfg_has_option "general" "log_level" ;;
  (if has : bool then
     v <- cfg_get "general" "log_level" ;;
     let log_level := upper v in
     if existsb (String.eqb log_level) LOG_SET then
       match logging_level log_level with
       | Some level => emit (logging_basicConfig level)
       | None => raise (AttributeError log_level)
       end
     else
       emit (logging_basicConfig 30%Z) ;;
       emit (logger_warning ("Invalid debugging level " ++ log_level ++
                             " defaulted to WARNING"))
   else
     emit (logging_basicConfig 30%Z)) ;;
  env <- ask ;;
  match argv env with
  | _ :: name :: rest =>
      match model.assoc name command_dict with
      | Some command => command rest
      | None => help []
      end
  | _ => help []
  end.

(** *** Vocabulary of the properties *)

(** The two statements of [main]: the set-up of logging (lines 142-156)
    and the dispatch on [sys.argv] (lines 158-162). *)
Definition main_logging : IO unit :=
  has <- cfg_has_option "general" "log_level" ;;
  if has : bool then
    v <- cfg_get "general" "log_level" ;;
    let log_level := upper v in
    if existsb (String.eqb log_level) LOG_SET then
      match logging_level log_level with
      | Some level => emit (logging_basicConfig level)
      | None => raise (AttributeError log_level)
      end
    else
      emit (logging_basicConfig 30%Z) ;;
      emit (logger_warning ("Invalid debugging level " ++ log_level ++
                            " defaulted to WARNING"))
  else
    emit (logging_basicConfig 30%Z).

Definition main_dispatch : IO unit :=
  env <- ask ;;
  match argv env with
  | _ :: name :: rest =>
      match model.assoc name command_dict with
      | Some command => command rest
      | None => help []
      end
  | _ => help []
  end.

(** The segments that [object_url] appends to the endpoint. *)
Fixpoint segments (actual : list string) : string :=
  match actual with
  | [] => ""
  | arg :: r => "/" ++ quote arg ++ segments r
  end.

(** An event that contacts the server. *)
Definition is_request (ev : Event) : bool :=
  match ev with
  | requests_put _ _ | requests_delete _ => true
  | _ => false
  end.

(** The two lines that [help] writes for a command. *)
Definition help_lines (f : Signature) : list Event :=
  [stderr_write ("  " ++ get_usage f ++ nl);
   stderr_write ("      " ++ __doc__ f ++ nl)].

(** The number of times a character occurs in a string. *)
Fixpoint count_char (c : ascii) (s : string) : nat :=
  match s with
  | EmptyString => O
  | String d r => (if Ascii.eqb c d then 1 else 0) + count_char c r
  end.

(** An environment for examples: the endpoint is configured, the server
    answers every request with 200 and "ok". *)
Definition env_ok (arguments : list string) : Env :=
  mkEnv (fun section option =>
           if String.eqb section "client" && String.eqb option "endpoint"
           then Some "http://127.0.0.1:5000" else None)
        (fun section => String.eqb section "client")
        ("haas" :: arguments)
        (fun _ _ => inr (mkResponse 200 "ok"))
        (fun _ => inr (mkResponse 200 "ok"))
        (fun _ => inr tt)
        (fun _ => inr tt).

(** The same with an empty configuration file: no section at all. *)
Definition env_empty (arguments : list string) : Env :=
  mkEnv (fun _ _ => None)
        (fun _ => false)
        ("haas" :: arguments)
        (fun _ _ => inr (mkResponse 200 "ok"))
        (fun _ => inr (mkResponse 200 "ok"))
        (fun _ => inr tt)
        (fun _ => inr tt).

(** The same with a section [client] that gives no endpoint. *)
Definition env_no_endpoint (arguments : list string) : Env :=
  mkEnv (fun _ _ => None)
        (fun section => String.eqb section "client")
        ("haas" :: arguments)
        (fun _ _ => inr (mkResponse 200 "ok"))
        (fun _ => inr (mkResponse 200 "ok"))
        (fun _ => inr tt)
        (fun _ => inr tt).

End cli.

(* ================================================================== *)
(** ** Requests and the vocabulary of the properties *)
(* ================================================================== *)

Import model api.

(** The four routes that [api.py] registers with [rest_call]. *)
Inductive Request : Type :=
| PUT_service (service service_type api endpoint : string)
| DELETE_service (service : string)
| PUT_api (api : string)
| DELETE_api (api : string).

Definition handle (r : Request) : Process -> Outcome :=
  match r with
  | PUT_service service service_type api endpoint =>
      service_create service service_type api endpoint
  | DELETE_service service => service_delete service
  | PUT_api api => api_create api
  | DELETE_api api => api_delete api
  end.

(** Requests served one after the other by one process. *)
Definition serve (rs : list Request) (p : Process) : Process :=
  fold_left (fun q r => snd (handle r q)) rs p.

(** A process that has served nothing yet. *)
Definition start (db : Store) : Process := mkProcess db false.

(** The request reaches a query on a class of [model.py]: every route
    but [PUT /api/<api>]. *)
Definition uses_mappers (r : Request) : bool :=
  match r with
  | PUT_api _ => false
  | _ => true
  end.

(** What the use of a class of [model.py] raises: the error of the
    relationship [Service.api] the first time, and [InvalidRequestError]
    once the configuration has failed. *)
Definition mapper_error (failed_before : bool) : exn :=
  if failed_before
  then InvalidRequestError (mappers_failed "Service.api" "service_api")
  else NoForeignKeysError "Service.api" "service_api".

(** A row carries the label. *)
Definition labelled (name : string) (o : Obj) : bool :=
  String.eqb (label o) name.

(** The rows of a class that carry a label. *)
Definition lookup (cls : Class) (name : string) (db : Store) : list Obj :=
  filter (labelled name) (table cls db).

(** The rows of a class that an owner owns and that carry a label. *)
Definition owned_lookup (obj_outer : Obj) (cls_inner : Class)
    (name_inner : string) (db : Store) : list Obj :=
  filter (labelled name_inner)
    (filter (has_attr_value "owner" (ref obj_outer)) (table cls_inner db)).

(** The table and the label of a row. *)
Definition key (o : Obj) : string * string :=
  (__tablename__ (__class__ o), label o).



(** *** Databases used as examples *)

Module fixtures.

Definition api_a : Obj := mkObj API (Some 1%Z) "a" [].


Definition svc1 : Obj :=
  mkObj Service (Some 1%Z) "svc1"
    [("service_type", VStr "compute"); ("api", refs [api_a]);
     ("endpoint", VStr "http://h/")].

(** Only the API "a". *)
Definition db_a : Store := [api_a].


(** The service "svc1" and no API at all. *)
Definition db_svc1 : Store := [svc1].

(** The API "a" and the service "svc1" that implements it. *)
Definition db_a_svc1 : Store := [api_a; svc1].

(** Namespaced classes in the manner of "a node's nic": nodes own nics. *)
Definition Node : Class := mkClass "Node" [].
Definition Nic : Class := mkClass "Nic" ["owner"; "mac_addr"].

Definition node1 : Obj := mkObj Node (Some 1%Z) "n1" [].
Definition node2 : Obj := mkObj Node (Some 2%Z) "n2" [].

Definition nic_x_on_node1 : Obj :=
  mkObj Nic (Some 1%Z) "x" [("owner", ref node1); ("mac_addr", VStr "00:01")].
Definition nic_y_on_node2 : Obj :=
  mkObj Nic (Some 2%Z) "y" [("owner", ref node2); ("mac_addr", VStr "00:02")].

Definition db_nodes : Store := [node1; node2; nic_x_on_node1; nic_y_on_node2].

End fixtures.

(* ================================================================== *)
(** ** How the guards evaluate *)
(* ================================================================== *)








(** The registry of [model.py] cannot be configured: [service_api] has no
    foreign key to the table of [Service]. *)
Lemma registry_fails :
  configure_mappers registry =
  Some (NoForeignKeysError "Service.api" "service_api").
Proof. reflexivity. Qed.

Lemma configure_eval (cls : Class) (s : SessionState) :
  configure cls s =
  (if mapped_in_model cls then inl (mapper_error (configure_failed s))
   else inr tt, s).
Proof.
  unfold configure, mapper_error. rewrite registry_fails.
  destruct (mapped_in_model cls), (configure_failed s); reflexivity.
Qed.

Lemma labelled_iff (name : string) (o : Obj) :
  labelled name o = true <-> label o = name.
Proof. unfold labelled. apply String.eqb_eq. Qed.

(** Filtering on the [label] column is filtering on the label. *)
Lemma has_label_value (name : string) (o : Obj) :
  has_attr_value "label" (VStr name) o = labelled name o.
Proof. reflexivity. Qed.

Lemma filter_by_label (q : Query) (name : string) (s : SessionState) :
  filter_by q "label" (VStr name) s =
  (inr (mkQuery (entity q) (filter (labelled name) (rows q))), s).
Proof.
  unfold filter_by, properties. simpl. unfold ret. do 3 f_equal.
Qed.

(** Every class has a [label]; only a class that declares an [owner] can be
    filtered on it. *)
Lemma filter_by_owner (q : Query) (v : Val) (s : SessionState) :
  filter_by q "owner" v s =
  (if existsb (String.eqb "owner") (own_properties (entity q))
   then inr (mkQuery (entity q) (filter (has_attr_value "owner" v) (rows q)))
   else inl (InvalidRequestError (no_property (__name__ (entity q)) "owner")),
   s).
Proof.
  unfold filter_by, properties. simpl.
  destruct (existsb _ _); reflexivity.
Qed.

Lemma assert_absent_eval (cls : Class) (name : string) (s : SessionState) :
  _assert_absent cls name s =
  (if mapped_in_model cls then inl (mapper_error (configure_failed s))
   else
     match lookup cls name (visible s) with
     | [] => inr tt
     | _ :: _ =>
         inl (DuplicateError (__name__ cls ++ " " ++ name ++ " already exists."))
     end, s).
Proof.
  unfold _assert_absent, query, mbind. rewrite configure_eval.
  destruct (mapped_in_model cls); [reflexivity|].
  rewrite filter_by_label. unfold first, ret, lookup. simpl.
  destruct (filter (labelled name) (table cls (visible s))); reflexivity.
Qed.

Lemma must_find_eval (cls : Class) (name : string) (s : SessionState) :
  _must_find cls name s =
  (if mapped_in_model cls then inl (mapper_error (configure_failed s))
   else
     match lookup cls name (visible s) with
     | [] =>
         inl (NotFoundError (__name__ cls ++ " " ++ name ++ " does not exist."))
     | obj :: _ => inr obj
     end, s).
Proof.
  unfold _must_find, query, mbind. rewrite configure_eval.
  destruct (mapped_in_model cls); [reflexivity|].
  rewrite filter_by_label. unfold first, ret, lookup. simpl.
  destruct (filter (labelled name) (table cls (visible s))); reflexivity.
Qed.

Lemma lookup_In (cls : Class) (name : string) (db : Store) (o : Obj) :
  In o (lookup cls name db) <-> In o (table cls db) /\ label o = name.
Proof.
  unfold lookup. rewrite filter_In, labelled_iff. tauto.
Qed.

Lemma lookup_nil (cls : Class) (name : string) (db : Store) :
  lookup cls name db = [] <->
  (forall o, In o (table cls db) -> label o <> name).
Proof.
  split.
  - intros E o Ho Hl.
    assert (In o (lookup cls name db)) as Hin by (apply lookup_In; auto).
    rewrite E in Hin. destruct Hin.
  - intros H. destruct (lookup cls name db) as [|o l] eqn:E; [reflexivity|].
    assert (In o (lookup cls name db)) as Hin by (rewrite E; now left).
    apply lookup_In in Hin as [Ho Hl]. now apply H in Ho.
Qed.

Lemma lookup_cons (cls : Class) (name : string) (db : Store) :
  (exists o, In o (table cls db) /\ label o = name) ->
  exists o l, lookup cls name db = o :: l.
Proof.
  intros [o [Ho Hl]].
  destruct (lookup cls name db) as [|o' l] eqn:E; [|eauto].
  exfalso. revert Hl. now apply (proj1 (lookup_nil cls name db) E).
Qed.

(* ================================================================== *)
(** ** The guards on top-level records *)
(* ================================================================== *)

(** C1.  What the code does on the entity types of the repository: on
    [Service] and on [API], whatever the label and whatever the database
    holds, [_assert_absent] neither returns nor raises [DuplicateError].
    Its query configures the mappers, which fails on the relationship
    [Service.api]: the call raises [NoForeignKeysError] the first time in a
    process and [InvalidRequestError] from then on. *)
Theorem assert_absent_on_model_classes (session : SessionState) (name : string) :
  _assert_absent Service name session =
  (inl (if configure_failed session
        then InvalidRequestError (mappers_failed "Service.api" "service_api")
        else NoForeignKeysError "Service.api" "service_api"), session) /\
  _assert_absent API name session =
  (inl (if configure_failed session
        then InvalidRequestError (mappers_failed "Service.api" "service_api")
        else NoForeignKeysError "Service.api" "service_api"), session) /\
  _assert_absent API "b" (Session fixtures.db_a) =
  (inl (NoForeignKeysError "Service.api" "service_api"), Session fixtures.db_a) /\
  _assert_absent API "a" (Session fixtures.db_a) =
  (inl (NoForeignKeysError "Service.api" "service_api"), Session fixtures.db_a).
Proof.
  rewrite !assert_absent_eval. repeat split.
Qed.

(** C2.  What the code does on the entity types of the repository: on
    [Service] and on [API], whatever the label and whatever the database
    holds, [_must_find] neither returns a record nor raises
    [NotFoundError]: it raises [NoForeignKeysError] the first time in a
    process and [InvalidRequestError] from then on. *)
Theorem must_find_on_model_classes (session : SessionState) (name : string) :
  _must_find Service name session =
  (inl (if configure_failed session
        then InvalidRequestError (mappers_failed "Service.api" "service_api")
        else NoForeignKeysError "Service.api" "service_api"), session) /\
  _must_find API name session =
  (inl (if configure_failed session
        then InvalidRequestError (mappers_failed "Service.api" "service_api")
        else NoForeignKeysError "Service.api" "service_api"), session) /\
  _must_find API "a" (Session fixtures.db_a_svc1) =
  (inl (NoForeignKeysError "Service.api" "service_api"),
   Session fixtures.db_a_svc1) /\
  _must_find API "svc1" (Session fixtures.db_a_svc1) =
  (inl (NoForeignKeysError "Service.api" "service_api"),
   Session fixtures.db_a_svc1).
Proof.
  rewrite !must_find_eval. repeat split.
Qed.

(** X1.  [_assert_absent] on a class mapped outside [model.py]: when no
    row of the class that the session sees carries the label, the call
    returns normally; when some row does, it raises [DuplicateError] with
    the message "<class name> <name> already exists.".  Either way the
    session is left as it was. *)
Theorem assert_absent_spec (session : SessionState) (cls : Class) (name : string) :
  mapped_in_model cls = false ->
  ((forall o, In o (table cls (visible session)) -> label o <> name) ->
   _assert_absent cls name session = (inr tt, session)) /\
  ((exists o, In o (table cls (visible session)) /\ label o = name) ->
   _assert_absent cls name session =
   (inl (DuplicateError (__name__ cls ++ " " ++ name ++ " already exists.")),
    session)).
Proof.
  intros Hm. rewrite assert_absent_eval, Hm. split.
  - intros H. apply lookup_nil in H. now rewrite H.
  - intros H. apply lookup_cons in H as [o [l E]]. now rewrite E.
Qed.

Lemma assert_absent_spec_witness :
  _assert_absent fixtures.Node "n3" (Session fixtures.db_nodes) =
  (inr tt, Session fixtures.db_nodes) /\
  _assert_absent fixtures.Node "n1" (Session fixtures.db_nodes) =
  (inl (DuplicateError "Node n1 already exists."), Session fixtures.db_nodes).
Proof.
  split.
  - apply (proj1 (assert_absent_spec (Session fixtures.db_nodes) fixtures.Node
                    "n3" eq_refl)).
    intros o [<-|[<-|[]]]; discriminate.
  - apply (proj2 (assert_absent_spec (Session fixtures.db_nodes) fixtures.Node
                    "n1" eq_refl)).
    exists fixtures.node1. split; [now left | reflexivity].
Defined.

(** X3.  [_must_find] on a class mapped outside [model.py]: when some row
    of the class that the session sees carries the label, the call returns
    such a row (the first one of the table); when none does, it raises
    [NotFoundError] with the message "<class name> <name> does not
    exist.". *)
Theorem must_find_spec (session : SessionState) (cls : Class) (name : string) :
  mapped_in_model cls = false ->
  ((exists o, In o (table cls (visible session)) /\ label o = name) ->
   exists obj,
     _must_find cls name session = (inr obj, session) /\
     In obj (table cls (visible session)) /\ label obj = name /\
     hd_error (lookup cls name (visible session)) = Some obj) /\
  ((forall o, In o (table cls (visible session)) -> label o <> name) ->
   _must_find cls name session =
   (inl (NotFoundError (__name__ cls ++ " " ++ name ++ " does not exist.")),
    session)).
Proof.
  intros Hm. rewrite must_find_eval, Hm. split.
  - intros H. apply lookup_cons in H as [o [l E]]. rewrite E.
    exists o. split; [reflexivity|].
    assert (In o (lookup cls name (visible session))) as Hin
      by (rewrite E; now left).
    apply lookup_In in Hin as [Ho Hl]. auto.
  - intros H. apply lookup_nil in H. now rewrite H.
Qed.

Lemma must_find_spec_witness :
  (exists obj,
     _must_find fixtures.Node "n2" (Session fixtures.db_nodes) =
     (inr obj, Session fixtures.db_nodes) /\
     In obj (table fixtures.Node (visible (Session fixtures.db_nodes))) /\
     label obj = "n2" /\
     hd_error (lookup fixtures.Node "n2" (visible (Session fixtures.db_nodes))) =
     Some obj) /\
  _must_find fixtures.Node "x" (Session fixtures.db_nodes) =
  (inl (NotFoundError "Node x does not exist."), Session fixtures.db_nodes).
Proof.
  split.
  - apply (proj1 (must_find_spec (Session fixtures.db_nodes) fixtures.Node
                    "n2" eq_refl)).
    exists fixtures.node2. split; [right; now left | reflexivity].
  - apply (proj2 (must_find_spec (Session fixtures.db_nodes) fixtures.Node
                    "x" eq_refl)).
    intros o [<-|[<-|[]]]; discriminate.
Defined.

(* ================================================================== *)
(** ** The guards on namespaced records *)
(* ================================================================== *)




Lemma namespaced_query_eval (O : Obj) (C : Class) (name : string)
    (s : SessionState) :
  _namespaced_query O C name s =
  (if mapped_in_model C then inl (mapper_error (configure_failed s))
   else if existsb (String.eqb "owner") (own_properties C)
   then inr (hd_error (owned_lookup O C name (visible s)))
   else inl (InvalidRequestError (no_property (__name__ C) "owner")), s).
Proof.
  unfold _namespaced_query, query, mbind. rewrite configure_eval.
  destruct (mapped_in_model C); [reflexivity|].
  rewrite filter_by_owner.
  cbn [entity rows]. destruct (existsb _ _); [|reflexivity].
  rewrite filter_by_label. reflexivity.
Qed.



(* ================================================================== *)
(** ** The guards only read *)
(* ================================================================== *)

(** C9.  The four guards are read-only: whatever the session and the
    arguments, and whether the guard returns or raises, the session after
    the call is the session before it; so are the database it is bound to
    and what is pending in it. *)
Theorem guards_read_only (session : SessionState) (cls : Class) (name : string)
    (obj_outer : Obj) :
  snd (_assert_absent cls name session) = session /\
  snd (_must_find cls name session) = session /\
  snd (_assert_absent_n obj_outer cls name session) = session /\
  snd (_must_find_n obj_outer cls name session) = session.
Proof.
  repeat split.
  - now rewrite assert_absent_eval.
  - now rewrite must_find_eval.
  - unfold _assert_absent_n, mbind. rewrite namespaced_query_eval.
    destruct (mapped_in_model cls); [reflexivity|].
    destruct (existsb _ _); [|reflexivity].
    destruct (hd_error _); reflexivity.
  - unfold _must_find_n, mbind. rewrite namespaced_query_eval.
    destruct (mapped_in_model cls); [reflexivity|].
    destruct (existsb _ _); [|reflexivity].
    destruct (hd_error _); reflexivity.
Qed.

(* ================================================================== *)
(** ** More on the guards *)
(* ================================================================== *)





(** X7.  The namespaced guards on the classes of [model.py].  On
    [Service] and on [API] the query of [_assert_absent_n] and
    [_must_find_n] fails when it configures the mappers, before any filter
    on [owner] is reached: both guards raise [NoForeignKeysError] for the
    relationship [Service.api] the first time in a process, and
    [InvalidRequestError] from then on; they neither return nor raise
    [DuplicateError] or [NotFoundError]. *)
Theorem namespaced_guards_on_model_classes (attr : string) (cls : Class)
    (obj_outer : Obj) (name : string) (session : SessionState) :
  assoc attr model.__dict__ = Some cls ->
  _assert_absent_n obj_outer cls name session =
  (inl (if configure_failed session
        then InvalidRequestError (mappers_failed "Service.api" "service_api")
        else NoForeignKeysError "Service.api" "service_api"), session) /\
  _must_find_n obj_outer cls name session =
  (inl (if configure_failed session
        then InvalidRequestError (mappers_failed "Service.api" "service_api")
        else NoForeignKeysError "Service.api" "service_api"), session).
Proof.
  intros H. unfold _assert_absent_n, _must_find_n, mbind.
  rewrite namespaced_query_eval.
  simpl in H.
  destruct (String.eqb attr "Service"); [injection H as <-; split; reflexivity|].
  destruct (String.eqb attr "API"); [injection H as <-; split; reflexivity|].
  discriminate.
Qed.

Lemma namespaced_guards_on_model_classes_witness :
  _assert_absent_n fixtures.api_a Service "svc1" (Session fixtures.db_a_svc1) =
  (inl (NoForeignKeysError "Service.api" "service_api"),
   Session fixtures.db_a_svc1) /\
  _must_find_n fixtures.api_a Service "svc1" (Session fixtures.db_a_svc1) =
  (inl (NoForeignKeysError "Service.api" "service_api"),
   Session fixtures.db_a_svc1).
Proof.
  apply (namespaced_guards_on_model_classes "Service" Service fixtures.api_a
           "svc1" (Session fixtures.db_a_svc1)).
  reflexivity.
Defined.

(* ================================================================== *)
(** ** How the endpoints evaluate *)
(* ================================================================== *)

(** [api_create] guards on [model.Group]; the module defines no such
    name, so the call raises before any guard runs. *)
Lemma api_create_eval (api : string) (p : Process) :
  api_create api p = (inl (AttributeError "model" "Group"), p).
Proof.
  destruct p as [db failed]. unfold api_create, in_session, mbind. simpl.
  now rewrite orb_false_r.
Qed.

(** The three other endpoints start with a guard on [Service] or [API]:
    its query fails in the configuration of the mappers. *)
Lemma service_create_eval (service service_type api endpoint : string)
    (p : Process) :
  service_create service service_type api endpoint p =
  (inl (mapper_error (mappers_failed_before p)), mkProcess (database p) true).
Proof.
  destruct p as [db failed]. unfold service_create, in_session, mbind.
  cbn [model_attr assoc model.__dict__ String.eqb Ascii.eqb Bool.eqb ret].
  rewrite assert_absent_eval. destruct failed; reflexivity.
Qed.

Lemma service_delete_eval (service : string) (p : Process) :
  service_delete service p =
  (inl (mapper_error (mappers_failed_before p)), mkProcess (database p) true).
Proof.
  destruct p as [db failed]. unfold service_delete, in_session, mbind.
  cbn [model_attr assoc model.__dict__ String.eqb Ascii.eqb Bool.eqb ret].
  rewrite must_find_eval. destruct failed; reflexivity.
Qed.

Lemma api_delete_eval (api : string) (p : Process) :
  api_delete api p =
  (inl (mapper_error (mappers_failed_before p)), mkProcess (database p) true).
Proof.
  destruct p as [db failed]. unfold api_delete, in_session, mbind.
  cbn [model_attr assoc model.__dict__ String.eqb Ascii.eqb Bool.eqb ret].
  rewrite must_find_eval. destruct failed; reflexivity.
Qed.

Lemma handle_eval (r : Request) (p : Process) :
  handle r p =
  if uses_mappers r
  then (inl (mapper_error (mappers_failed_before p)),
        mkProcess (database p) true)
  else (inl (AttributeError "model" "Group"), p).
Proof.
  destruct r; simpl.
  - apply service_create_eval.
  - apply service_delete_eval.
  - apply api_create_eval.
  - apply api_delete_eval.
Qed.

(* ================================================================== *)
(** ** [api_create] and [api_delete] *)
(* ================================================================== *)

(** C3.  What the code does on the scenario, in a process that starts on
    any database: the first [api_create "gamma"] raises [AttributeError]
    (no success, no record added), the second raises it again (no
    [DuplicateError]); the first [api_delete "gamma"] raises
    [NoForeignKeysError] and the second [InvalidRequestError] (neither a
    success nor [NotFoundError]); none of the four has a status code of
    its own, and the database is as it was throughout. *)
Theorem api_gamma_scenario_on_code (db : Store) :
  api_create "gamma" (start db) =
  (inl (AttributeError "model" "Group"), start db) /\
  api_create "gamma" (serve [PUT_api "gamma"] (start db)) =
  (inl (AttributeError "model" "Group"), start db) /\
  api_delete "gamma" (serve [PUT_api "gamma"; PUT_api "gamma"] (start db)) =
  (inl (NoForeignKeysError "Service.api" "service_api"), mkProcess db true) /\
  api_delete "gamma"
    (serve [PUT_api "gamma"; PUT_api "gamma"; DELETE_api "gamma"] (start db)) =
  (inl (InvalidRequestError (mappers_failed "Service.api" "service_api")),
   mkProcess db true) /\
  status_code (AttributeError "model" "Group") = None /\
  status_code (NoForeignKeysError "Service.api" "service_api") = None /\
  status_code (InvalidRequestError (mappers_failed "Service.api" "service_api")) =
  None.
Proof.
  unfold serve, start. cbn [fold_left handle].
  repeat (rewrite ?api_create_eval, ?api_delete_eval;
          cbn [snd database mappers_failed_before]).
  repeat split.
Qed.

(** C6.  What the code does on the round trip, in a process that starts
    on any database: [api_create "foo"] raises [AttributeError] and adds
    nothing; [_must_find] of API "foo" right after it raises
    [NoForeignKeysError] instead of returning a record; in the process
    where the configuration of the mappers has failed in this way,
    [api_delete "foo"] raises [InvalidRequestError] instead of succeeding,
    and so does a last [_must_find], instead of raising
    [NotFoundError]. *)
Theorem api_round_trip_on_code (db : Store) :
  api_create "foo" (start db) =
  (inl (AttributeError "model" "Group"), start db) /\
  _must_find API "foo" (session_of (snd (api_create "foo" (start db)))) =
  (inl (NoForeignKeysError "Service.api" "service_api"),
   session_of (start db)) /\
  api_delete "foo" (mkProcess db true) =
  (inl (InvalidRequestError (mappers_failed "Service.api" "service_api")),
   mkProcess db true) /\
  _must_find API "foo" (session_of (mkProcess db true)) =
  (inl (InvalidRequestError (mappers_failed "Service.api" "service_api")),
   session_of (mkProcess db true)).
Proof.
  unfold start. rewrite api_create_eval, api_delete_eval.
  cbn [snd]. rewrite !must_find_eval. repeat split.
Qed.

(* ================================================================== *)
(** ** [service_create] *)
(* ================================================================== *)

(** C4.  What the code does when the referenced API is absent: whatever
    the arguments and the process, [service_create] raises the error of
    the mappers at its first guard, [NoForeignKeysError] the first time
    and [InvalidRequestError] from then on, never [NotFoundError]; the
    error has no status code of its own; the database is as it was.  So
    it is for the service "svc1" and the API "missing-api" on the empty
    database. *)
Theorem service_create_missing_api_on_code
    (service service_type api endpoint : string) (p : Process) :
  service_create service service_type api endpoint p =
  (inl (if mappers_failed_before p
        then InvalidRequestError (mappers_failed "Service.api" "service_api")
        else NoForeignKeysError "Service.api" "service_api"),
   mkProcess (database p) true) /\
  (forall msg,
     fst (service_create service service_type api endpoint p) <>
     inl (NotFoundError msg)) /\
  service_create "svc1" "compute" "missing-api" "http://h/" (start []) =
  (inl (NoForeignKeysError "Service.api" "service_api"), mkProcess [] true) /\
  status_code (NoForeignKeysError "Service.api" "service_api") = None.
Proof.
  rewrite !service_create_eval. repeat split.
  intros msg. simpl. unfold mapper_error.
  destruct (mappers_failed_before p); discriminate.
Qed.

(** C10.  What the code does when the service exists and the API does
    not: in every process whose database holds a Service with the
    requested label and no API with the referenced label,
    [service_create] raises the error of the mappers at the guard on the
    service, not [DuplicateError]; the error has no status code of its
    own; the database is as it was. *)
Theorem service_create_existing_service_on_code
    (service service_type api endpoint : string) (p : Process) :
  (exists o, In o (table Service (database p)) /\ label o = service) ->
  (forall o, In o (table API (database p)) -> label o <> api) ->
  exists e,
    service_create service service_type api endpoint p =
    (inl e, mkProcess (database p) true) /\
    e = (if mappers_failed_before p
         then InvalidRequestError (mappers_failed "Service.api" "service_api")
         else NoForeignKeysError "Service.api" "service_api") /\
    (forall msg, e <> DuplicateError msg) /\
    status_code e = None.
Proof.
  intros _ _. rewrite service_create_eval. eexists. split; [reflexivity|].
  unfold mapper_error. destruct (mappers_failed_before p); repeat split;
    intros msg; discriminate.
Qed.

Lemma service_create_existing_service_on_code_witness :
  exists e,
    service_create "svc1" "compute" "missing-api" "http://h/"
      (start fixtures.db_svc1) =
    (inl e, mkProcess fixtures.db_svc1 true) /\
    e = NoForeignKeysError "Service.api" "service_api" /\
    (forall msg, e <> DuplicateError msg) /\
    status_code e = None.
Proof.
  apply (service_create_existing_service_on_code
           "svc1" "compute" "missing-api" "http://h/" (start fixtures.db_svc1)).
  - exists fixtures.svc1. split; [now left | reflexivity].
  - intros o [].
Defined.

(* ================================================================== *)
(** ** Deleting *)
(* ================================================================== *)

(** C7.  What the code does on deletes: whatever the label and the
    process, and whether or not a record carries the label, [api_delete]
    and [service_delete] raise the error of the mappers at [_must_find]:
    [NoForeignKeysError] the first time, [InvalidRequestError] on every
    further delete.  No delete returns normally and none raises
    [NotFoundError]; the database is as it was.  So it is for the API "a"
    on the database that holds it. *)
Theorem delete_twice_on_code (L : string) (p : Process) :
  api_delete L p =
  (inl (if mappers_failed_before p
        then InvalidRequestError (mappers_failed "Service.api" "service_api")
        else NoForeignKeysError "Service.api" "service_api"),
   mkProcess (database p) true) /\
  api_delete L (snd (api_delete L p)) =
  (inl (InvalidRequestError (mappers_failed "Service.api" "service_api")),
   mkProcess (database p) true) /\
  service_delete L p =
  (inl (if mappers_failed_before p
        then InvalidRequestError (mappers_failed "Service.api" "service_api")
        else NoForeignKeysError "Service.api" "service_api"),
   mkProcess (database p) true) /\
  service_delete L (snd (service_delete L p)) =
  (inl (InvalidRequestError (mappers_failed "Service.api" "service_api")),
   mkProcess (database p) true) /\
  api_delete "a" (start fixtures.db_a) =
  (inl (NoForeignKeysError "Service.api" "service_api"),
   mkProcess fixtures.db_a true) /\
  api_delete "a" (snd (api_delete "a" (start fixtures.db_a))) =
  (inl (InvalidRequestError (mappers_failed "Service.api" "service_api")),
   mkProcess fixtures.db_a true).
Proof.
  unfold start.
  repeat (rewrite ?api_delete_eval, ?service_delete_eval;
          cbn [snd database mappers_failed_before]).
  unfold mapper_error. repeat split.
Qed.

(* ================================================================== *)
(** ** The endpoints as a whole *)
(* ================================================================== *)

(** X2.  Every request fails.  [PUT /api/<api>] raises [AttributeError]
    for [model.Group] and leaves the process as it was.  Each of the three
    other routes raises the error of the mappers at its first guard,
    [NoForeignKeysError] the first time in a process and
    [InvalidRequestError] from then on, and leaves the database as it was.
    No request returns normally, and none raises [NotFoundError] or
    [DuplicateError]. *)
Theorem every_request_fails (r : Request) (p : Process) :
  handle r p =
  match r with
  | PUT_api _ => (inl (AttributeError "model" "Group"), p)
  | _ =>
      (inl (if mappers_failed_before p
            then InvalidRequestError (mappers_failed "Service.api" "service_api")
            else NoForeignKeysError "Service.api" "service_api"),
       mkProcess (database p) true)
  end /\
  database (snd (handle r p)) = database p /\
  fst (handle r p) <> inr tt /\
  (forall e, fst (handle r p) = inl e -> status_code e = None).
Proof.
  rewrite handle_eval. unfold mapper_error.
  destruct r; simpl; destruct (mappers_failed_before p);
    repeat split; try discriminate; intros e H; injection H as <-; reflexivity.
Qed.

(** X4.  No sequence of requests changes the database.  After any
    requests served by one process, the database is the one the process
    started on, and the configuration of the mappers has failed exactly
    when it had before or one of the requests was not a
    [PUT /api/<api>]. *)
Theorem requests_leave_the_database (rs : list Request) (p : Process) :
  database (serve rs p) = database p /\
  mappers_failed_before (serve rs p) =
  mappers_failed_before p || existsb uses_mappers rs.
Proof.
  unfold serve. revert p. induction rs as [|r rs IH]; intros p; simpl.
  - now rewrite orb_false_r.
  - destruct (IH (snd (handle r p))) as [Hd Hf]. rewrite Hd, Hf.
    rewrite handle_eval. destruct (uses_mappers r); simpl.
    + split; [reflexivity|]. now rewrite orb_true_r.
    + split; reflexivity.
Qed.

(* ================================================================== *)
(** ** What the schema enforces *)
(* ================================================================== *)













(* ================================================================== *)
(** ** The command line tool: arguments and dispatch *)
(* ================================================================== *)

Lemma io_bind_assoc {A B C : Type} (m : cli.IO A) (f : A -> cli.IO B)
    (g : B -> cli.IO C) (env : cli.Env) :
  cli.mbind (cli.mbind m f) g env =
  cli.mbind m (fun x => cli.mbind (f x) g) env.
Proof.
  unfold cli.mbind. destruct (m env) as [t [e|a]]; [reflexivity|].
  destruct (f a env) as [t' [e|b]]; [reflexivity|].
  destruct (g b env) as [t'' r]. now rewrite app_assoc.
Qed.

Lemma main_split (env : cli.Env) :
  cli.main env = cli.mbind cli.main_logging (fun _ => cli.main_dispatch) env.
Proof.
  unfold cli.main_logging. rewrite io_bind_assoc. reflexivity.
Qed.

(** [help] of one decorated function writes its two lines. *)
Lemma help_decorated (f : cli.Signature) (env : cli.Env) :
  In f cli.decorated ->
  cli.help [cli.__name__ f] env = (cli.help_lines f, inr tt).
Proof.
  intros [<-|[<-|[<-|[<-|[<-|[<-|[<-|[]]]]]]]]; reflexivity.
Qed.

Lemma wrapped_wrong_count (f : cli.Signature)
    (body : list string -> cli.IO unit) (actual : list string) (env : cli.Env) :
  In f cli.decorated ->
  cli.accepts f actual = false ->
  cli.wrapped f body actual env =
  (cli.stderr_write ("Wrong number of arguements.  Usage:" ++ cli.nl)
     :: cli.help_lines f, inr tt).
Proof.
  intros Hf Hacc.
  unfold cli.wrapped, cli.try_except_TypeError, cli.call. rewrite Hacc.
  unfold cli.raise, cli.mbind, cli.emit.
  now rewrite (help_decorated f env Hf).
Qed.

(** X8.  A wrong number of arguments.  Every decorated function is a
    command of [command_dict], and the command, called with a number of
    arguments that the function does not accept, writes
    "Wrong number of arguements.  Usage:" and the two help lines of the
    function to standard error, sends no request, and returns normally. *)
Theorem wrong_argument_count_prints_usage (f : cli.Signature) :
  In f cli.decorated ->
  exists command,
    model.assoc (cli.__name__ f) cli.command_dict = Some command /\
    forall actual env,
      cli.accepts f actual = false ->
      command actual env =
      (cli.stderr_write ("Wrong number of arguements.  Usage:" ++ cli.nl)
         :: cli.help_lines f, inr tt) /\
      existsb cli.is_request (fst (command actual env)) = false.
Proof.
  intros Hf.
  assert (forall body actual env,
            cli.accepts f actual = false ->
            cli.wrapped f body actual env =
            (cli.stderr_write ("Wrong number of arguements.  Usage:" ++ cli.nl)
               :: cli.help_lines f, inr tt) /\
            existsb cli.is_request (fst (cli.wrapped f body actual env)) = false)
    as Hw.
  { intros body actual env Hacc.
    rewrite (wrapped_wrong_count f body actual env Hf Hacc).
    split; reflexivity. }
  destruct Hf as [<-|[<-|[<-|[<-|[<-|[<-|[<-|[]]]]]]]].
  - exists (cli.wrapped cli.sig_serve cli.serve). split; [reflexivity|].
    apply Hw.
  - exists (cli.wrapped cli.sig_init_db cli.init_db). split; [reflexivity|].
    apply Hw.
  - exists (cli.wrapped cli.sig_service_create cli.service_create).
    split; [reflexivity|]. apply Hw.
  - exists (cli.wrapped cli.sig_service_delete cli.service_delete).
    split; [reflexivity|]. apply Hw.
  - exists (cli.wrapped cli.sig_api_create cli.api_create).
    split; [reflexivity|]. apply Hw.
  - exists (cli.wrapped cli.sig_api_delete cli.api_delete).
    split; [reflexivity|]. apply Hw.
  - exists cli.help. split; [reflexivity|].
    intros actual env Hacc. discriminate Hacc.
Qed.

Lemma wrong_argument_count_prints_usage_witness :
  exists command,
    model.assoc "service_create" cli.command_dict = Some command /\
    forall actual env,
      cli.accepts cli.sig_service_create actual = false ->
      command actual env =
      (cli.stderr_write ("Wrong number of arguements.  Usage:" ++ cli.nl)
         :: cli.help_lines cli.sig_service_create, inr tt) /\
      existsb cli.is_request (fst (command actual env)) = false.
Proof.
  apply (wrong_argument_count_prints_usage cli.sig_service_create).
  simpl. tauto.
Defined.

(* ================================================================== *)
(** ** The command line tool: [help] and [main] *)
(* ================================================================== *)

(** What [help] does for one name: the body of its loop. *)
Lemma help_loop_body_decorated (f : cli.Signature) (env : cli.Env) :
  In f cli.decorated ->
  cli.mbind (cli.dict_get cli.usage_dict (cli.__name__ f)) (fun usage =>
    cli.mbind (cli.emit (cli.stderr_write ("  " ++ usage ++ cli.nl))) (fun _ =>
    cli.mbind (cli.dict_get cli.doc_dict (cli.__name__ f)) (fun doc =>
    cli.emit (cli.stderr_write ("      " ++ doc ++ cli.nl))))) env =
  (cli.help_lines f, inr tt).
Proof.
  intros [<-|[<-|[<-|[<-|[<-|[<-|[<-|[]]]]]]]]; reflexivity.
Qed.

Lemma assoc_absent {A : Type} (key : string) (d : list (string * A)) :
  ~ In key (cli.keys d) -> model.assoc key d = None.
Proof.
  induction d as [|[k v] d IH]; simpl; intros H; [reflexivity|].
  destruct (String.eqb key k) eqn:E.
  - apply String.eqb_eq in E. exfalso. apply H. left. now symmetry.
  - apply IH. intros Hin. apply H. now right.
Qed.

Lemma help_loop_body_unknown (name : string) (env : cli.Env) :
  ~ In name (cli.keys cli.usage_dict) ->
  cli.mbind (cli.dict_get cli.usage_dict name) (fun usage =>
    cli.mbind (cli.emit (cli.stderr_write ("  " ++ usage ++ cli.nl))) (fun _ =>
    cli.mbind (cli.dict_get cli.doc_dict name) (fun doc =>
    cli.emit (cli.stderr_write ("      " ++ doc ++ cli.nl))))) env =
  ([], inl (cli.KeyError name)).
Proof.
  intros H. unfold cli.mbind at 1, cli.dict_get at 1.
  now rewrite (assoc_absent name cli.usage_dict H).
Qed.

(** The loop of [help] over decorated functions, then over anything. *)
Lemma help_loop (fs : list cli.Signature) (more : list string) (env : cli.Env) :
  (forall f, In f fs -> In f cli.decorated) ->
  cli.for_each (map cli.__name__ fs ++ more)%list (fun name =>
    cli.mbind (cli.dict_get cli.usage_dict name) (fun usage =>
    cli.mbind (cli.emit (cli.stderr_write ("  " ++ usage ++ cli.nl))) (fun _ =>
    cli.mbind (cli.dict_get cli.doc_dict name) (fun doc =>
    cli.emit (cli.stderr_write ("      " ++ doc ++ cli.nl)))))) env =
  let (t, r) :=
    cli.for_each more (fun name =>
      cli.mbind (cli.dict_get cli.usage_dict name) (fun usage =>
      cli.mbind (cli.emit (cli.stderr_write ("  " ++ usage ++ cli.nl))) (fun _ =>
      cli.mbind (cli.dict_get cli.doc_dict name) (fun doc =>
      cli.emit (cli.stderr_write ("      " ++ doc ++ cli.nl)))))) env in
  ((concat (map cli.help_lines fs) ++ t)%list, r).
Proof.
  induction fs as [|f fs IH]; intros Hfs.
  - simpl. now destruct (cli.for_each more _ env).
  - cbn [map app cli.for_each concat]. unfold cli.mbind at 1.
    rewrite (help_loop_body_decorated f env (Hfs f (or_introl eq_refl))).
    rewrite IH by (intros g Hg; apply Hfs; now right).
    destruct (cli.for_each more _ env) as [t r].
    now rewrite <- app_assoc.
Qed.

Lemma help_body_raises (actual : list string) (env : cli.Env) (t : list cli.Event) :
  cli.help_body actual env <> (t, inl cli.TypeError).
Proof.
  assert (forall names t',
            cli.for_each names (fun name =>
              cli.mbind (cli.dict_get cli.usage_dict name) (fun usage =>
              cli.mbind (cli.emit (cli.stderr_write ("  " ++ usage ++ cli.nl))) (fun _ =>
              cli.mbind (cli.dict_get cli.doc_dict name) (fun doc =>
              cli.emit (cli.stderr_write ("      " ++ doc ++ cli.nl)))))) env
            <> (t', inl cli.TypeError)) as Hloop.
  { induction names as [|name names IH]; intros t'; [discriminate|].
    cbn [cli.for_each]. unfold cli.mbind at 1, cli.mbind at 1, cli.dict_get at 1.
    destruct (model.assoc name cli.usage_dict) as [usage|]; [|discriminate].
    cbn [cli.ret]. unfold cli.mbind at 1, cli.emit at 1.
    unfold cli.mbind at 1, cli.dict_get at 1.
    destruct (model.assoc name cli.doc_dict) as [doc|]; [|discriminate].
    cbn [cli.ret cli.emit app].
    destruct (cli.for_each names _ env) as [t2 [e|[]]]; [|discriminate].
    intros H. injection H as _ ->. exact (IH t2 eq_refl). }
  unfold cli.help_body, cli.mbind at 1.
  destruct actual as [|a actual].
  - unfold cli.mbind at 1, cli.ask. 
    destruct (cli.argv env) as [|prog rest].
    + unfold cli.mbind, cli.raise. discriminate.
    + unfold cli.mbind at 1, cli.ret at 1. unfold cli.mbind at 1, cli.emit at 1.
      unfold cli.mbind at 1, cli.emit at 1. unfold cli.ret at 1.
      cbn [app].
      destruct (cli.for_each _ _ env) as [t2 [e|[]]] eqn:E; [|discriminate].
      intros H. injection H as _ ->. exact (Hloop _ _ E).
  - unfold cli.ret at 1.
    destruct (cli.for_each _ _ env) as [t2 [e|[]]] eqn:E; [|discriminate].
    intros H. injection H as _ ->. exact (Hloop _ _ E).
Qed.

(** [help] is its body: the handler of the decorator never runs for it. *)
Lemma help_eval (actual : list string) (env : cli.Env) :
  cli.help actual env = cli.help_body actual env.
Proof.
  unfold cli.help. generalize 1000%nat. intros depth.
  destruct depth; cbn [cli.help_wrapped];
    unfold cli.try_except_TypeError, cli.call;
    cbn [cli.accepts cli.sig_help cli.varargs cli.args length Nat.leb];
    pose proof (help_body_raises actual env) as H;
    destruct (cli.help_body actual env) as [t [[]|[]]]; try reflexivity;
    exfalso; exact (H t eq_refl).
Qed.

(** X9.  [help] with names.  For decorated functions followed by a name
    that is no command (and whatever comes after it), [help] writes the two
    lines of each function, in the order given, and then raises [KeyError]
    on the unknown name; the decorator does not catch it.  With decorated
    functions only (at least one), it writes their lines and returns. *)
Theorem help_with_names (fs : list cli.Signature) (bad : string)
    (more : list string) (env : cli.Env) :
  (forall f, In f fs -> In f cli.decorated) ->
  ~ In bad (cli.keys cli.usage_dict) ->
  cli.help (map cli.__name__ fs ++ bad :: more)%list env =
  (concat (map cli.help_lines fs), inl (cli.KeyError bad)) /\
  (fs <> [] ->
   cli.help (map cli.__name__ fs) env = (concat (map cli.help_lines fs), inr tt)).
Proof.
  intros Hfs Hbad. split.
  - rewrite help_eval. unfold cli.help_body, cli.mbind at 1.
    destruct (map cli.__name__ fs ++ bad :: more)%list as [|n ns] eqn:E.
    { destruct fs; discriminate E. }
    unfold cli.ret at 1. cbn [app]. rewrite <- E.
    rewrite (help_loop fs (bad :: more) env Hfs).
    cbn [cli.for_each]. unfold cli.mbind at 1.
    rewrite (help_loop_body_unknown bad env Hbad).
    now rewrite app_nil_r.
  - intros Hne. rewrite help_eval. unfold cli.help_body, cli.mbind at 1.
    destruct fs as [|f fs']; [contradiction|].
    remember (f :: fs') as fs0. 
    destruct (map cli.__name__ fs0) as [|n ns] eqn:E.
    { subst fs0. discriminate E. }
    unfold cli.ret at 1. cbn [app]. rewrite <- E.
    rewrite <- (app_nil_r (map cli.__name__ fs0)).
    rewrite (help_loop fs0 [] env Hfs).
    cbn [cli.for_each cli.ret]. now rewrite app_nil_r.
Qed.

Lemma help_with_names_witness :
  cli.help ["serve"; "nope"; "init_db"] (cli.env_ok []) =
  (cli.help_lines cli.sig_serve, inl (cli.KeyError "nope")) /\
  cli.help ["serve"] (cli.env_ok []) = (cli.help_lines cli.sig_serve, inr tt).
Proof.
  assert (forall f, In f [cli.sig_serve] -> In f cli.decorated) as H1.
  { intros f [<-|[]]. now left. }
  assert (~ In "nope" (cli.keys cli.usage_dict)) as H2.
  { simpl. intros [H|[H|[H|[H|[H|[H|[H|[]]]]]]]]; discriminate H. }
  destruct (help_with_names [cli.sig_serve] "nope" ["init_db"] (cli.env_ok [])
              H1 H2) as [Ha Hb].
  split; [exact Ha | apply Hb; discriminate].
Defined.

(** [help] without names: the synopsis, then every command in the order
    of [sorted]. *)
Lemma help_all (env : cli.Env) (prog : string) (rest : list string) :
  cli.argv env = prog :: rest ->
  cli.help [] env =
  (cli.stderr_write ("Usage: " ++ prog ++ " <command> <arguments...> " ++ cli.nl)
     :: cli.stderr_write ("Where <command> is one of:" ++ cli.nl)
     :: concat (map cli.help_lines
                  [cli.sig_api_create; cli.sig_api_delete; cli.sig_help;
                   cli.sig_init_db; cli.sig_serve; cli.sig_service_create;
                   cli.sig_service_delete]), inr tt).
Proof.
  intros H. rewrite help_eval. unfold cli.help_body.
  unfold cli.mbind at 1. unfold cli.mbind at 1, cli.ask. rewrite H.
  unfold cli.mbind at 1, cli.ret at 1. unfold cli.mbind at 1, cli.emit at 1.
  unfold cli.mbind at 1, cli.emit at 1. unfold cli.ret at 1. cbn [app].
  change (cli.sorted (cli.keys cli.doc_dict))
    with (map cli.__name__
            [cli.sig_api_create; cli.sig_api_delete; cli.sig_help;
             cli.sig_init_db; cli.sig_serve; cli.sig_service_create;
             cli.sig_service_delete] ++ [])%list.
  rewrite help_loop.
  - cbn [cli.for_each cli.ret]. now rewrite app_nil_r.
  - intros f Hf. simpl in Hf. simpl. tauto.
Qed.

(** The set-up of logging, whatever the configuration. *)
Lemma main_logging_eval (env : cli.Env) :
  exists level warnings,
    cli.main_logging env = (cli.logging_basicConfig level :: warnings, inr tt) /\
    In level [10; 20; 30; 40; 50]%Z /\
    match cli.cfg env "general" "log_level" with
    | None => level = 30%Z /\ warnings = []
    | Some v =>
        if existsb (String.eqb (cli.upper v)) cli.LOG_SET
        then cli.logging_level (cli.upper v) = Some level /\ warnings = []
        else level = 30%Z /\
             warnings =
             [cli.logger_warning ("Invalid debugging level " ++ cli.upper v ++
                                  " defaulted to WARNING")]
    end.
Proof.
  cbv [cli.main_logging cli.mbind cli.cfg_has_option cli.cfg_get cli.ask
       cli.ret cli.emit cli.raise].
  destruct (cli.cfg env "general" "log_level") as [v|] eqn:Ev;
    try rewrite Ev; cbn beta iota zeta; cbn [app].
  - destruct (existsb (String.eqb (cli.upper v)) cli.LOG_SET) eqn:Em.
    + simpl in Em. rewrite !orb_true_iff, !String.eqb_eq in Em.
      destruct Em as [E|[E|[E|[E|[E|[E|[E|E]]]]]]]; try discriminate E;
        rewrite E; cbn; do 2 eexists; (split; [reflexivity|]); simpl; tauto.
    + do 2 eexists. split; [reflexivity|]. simpl. tauto.
  - do 2 eexists. split; [reflexivity|]. simpl. tauto.
Qed.

(** X10.  Logging is set up first and cannot fail.  Whatever the
    configuration, [main] starts with exactly one [logging.basicConfig], at
    one of the levels 10, 20, 30, 40, 50.  Without the option [log_level]
    the level is WARNING (30); with a value that, in upper case, is a name
    of [LOG_SET], it is the level of that name; with any other value it is
    WARNING, and a warning that quotes the value in upper case is logged. *)
Theorem main_sets_up_logging (env : cli.Env) :
  exists level warnings rest,
    fst (cli.main env) = (cli.logging_basicConfig level :: warnings ++ rest)%list /\
    fst (cli.main_dispatch env) = rest /\
    snd (cli.main env) = snd (cli.main_dispatch env) /\
    In level [10; 20; 30; 40; 50]%Z /\
    match cli.cfg env "general" "log_level" with
    | None => level = 30%Z /\ warnings = []
    | Some v =>
        if existsb (String.eqb (cli.upper v)) cli.LOG_SET
        then cli.logging_level (cli.upper v) = Some level /\ warnings = []
        else level = 30%Z /\
             warnings =
             [cli.logger_warning ("Invalid debugging level " ++ cli.upper v ++
                                  " defaulted to WARNING")]
    end.
Proof.
  destruct (main_logging_eval env) as [level [warnings [E [Hl Hc]]]].
  exists level, warnings, (fst (cli.main_dispatch env)).
  rewrite main_split. unfold cli.mbind at 1 2. rewrite E.
  destruct (cli.main_dispatch env) as [t r]. simpl. auto.
Qed.

(** X11.  No command, or an unknown one.  When [sys.argv] holds only the
    program name, or its second element is no key of [command_dict], [main]
    writes (after the set-up of logging) the synopsis and the two help
    lines of each of the seven commands in alphabetical order, to standard
    error; it sends no request and returns normally. *)
Theorem unknown_command_prints_help (env : cli.Env) (prog : string) :
  (cli.argv env = [prog] \/
   exists name rest,
     cli.argv env = prog :: name :: rest /\
     ~ In name (cli.keys cli.command_dict)) ->
  cli.main_dispatch env =
  (cli.stderr_write ("Usage: " ++ prog ++ " <command> <arguments...> " ++ cli.nl)
     :: cli.stderr_write ("Where <command> is one of:" ++ cli.nl)
     :: concat (map cli.help_lines
                  [cli.sig_api_create; cli.sig_api_delete; cli.sig_help;
                   cli.sig_init_db; cli.sig_serve; cli.sig_service_create;
                   cli.sig_service_delete]), inr tt) /\
  snd (cli.main env) = inr tt /\
  existsb cli.is_request (fst (cli.main env)) = false.
Proof.
  intros H.
  assert (cli.main_dispatch env =
          (cli.stderr_write ("Usage: " ++ prog ++ " <command> <arguments...> " ++ cli.nl)
             :: cli.stderr_write ("Where <command> is one of:" ++ cli.nl)
             :: concat (map cli.help_lines
                          [cli.sig_api_create; cli.sig_api_delete; cli.sig_help;
                           cli.sig_init_db; cli.sig_serve; cli.sig_service_create;
                           cli.sig_service_delete]), inr tt)) as E.
  { unfold cli.main_dispatch, cli.mbind, cli.ask.
    destruct H as [H|[name [rest [H Hn]]]]; rewrite H.
    - rewrite (help_all env prog [] H). reflexivity.
    - rewrite (assoc_absent name cli.command_dict Hn).
      rewrite (help_all env prog (name :: rest) H). reflexivity. }
  split; [exact E|].
  destruct (main_logging_eval env) as [level [warnings [El [_ Hc]]]].
  rewrite main_split. unfold cli.mbind. rewrite El, E. split; [reflexivity|].
  cbn [fst]. rewrite existsb_app.
  apply orb_false_iff. split; [|reflexivity].
  destruct (cli.cfg env "general" "log_level") as [v|].
  - destruct (existsb (String.eqb (cli.upper v)) cli.LOG_SET);
      destruct Hc as [_ ->]; reflexivity.
  - destruct Hc as [_ ->]. reflexivity.
Qed.

Lemma unknown_command_prints_help_witness :
  cli.main_dispatch (cli.env_ok ["frobnicate"; "x"]) =
  (cli.stderr_write ("Usage: " ++ "haas" ++ " <command> <arguments...> " ++ cli.nl)
     :: cli.stderr_write ("Where <command> is one of:" ++ cli.nl)
     :: concat (map cli.help_lines
                  [cli.sig_api_create; cli.sig_api_delete; cli.sig_help;
                   cli.sig_init_db; cli.sig_serve; cli.sig_service_create;
                   cli.sig_service_delete]), inr tt) /\
  snd (cli.main (cli.env_ok ["frobnicate"; "x"])) = inr tt /\
  existsb cli.is_request (fst (cli.main (cli.env_ok ["frobnicate"; "x"]))) = false.
Proof.
  apply (unknown_command_prints_help (cli.env_ok ["frobnicate"; "x"]) "haas").
  right. exists "frobnicate", ["x"]. split; [reflexivity|].
  simpl. intros [H|[H|[H|[H|[H|[H|[H|[]]]]]]]]; discriminate H.
Defined.

(* ================================================================== *)
(** ** The command line tool: the four commands of the directory *)
(* ================================================================== *)

Lemma append_empty (u : string) : u ++ "" = u.
Proof. induction u as [|c u IH]; simpl; [reflexivity | now rewrite IH]. Qed.

Lemma append_append (u v w : string) : (u ++ v) ++ w = u ++ (v ++ w).
Proof. induction u as [|c u IH]; simpl; [reflexivity | now rewrite IH]. Qed.

Lemma cfg_get_eval (section option : string) (env : cli.Env) :
  cli.cfg_get section option env =
  ([], match cli.cfg env section option with
       | Some v => inr v
       | None =>
           inl (if cli.has_section env section
                then cli.NoOptionError section option
                else cli.NoSectionError section)
       end).
Proof.
  cbv [cli.cfg_get cli.mbind cli.ask cli.ret cli.raise].
  destruct (cli.cfg env section option); [reflexivity|].
  destruct (cli.has_section env section); reflexivity.
Qed.

Lemma object_url_eval (actual : list string) (env : cli.Env) :
  cli.object_url actual env =
  ([], match cli.cfg env "client" "endpoint" with
       | Some base => inr (base ++ cli.segments actual)
       | None =>
           inl (if cli.has_section env "client"
                then cli.NoOptionError "client" "endpoint"
                else cli.NoSectionError "client")
       end).
Proof.
  unfold cli.object_url, cli.mbind. rewrite cfg_get_eval.
  destruct (cli.cfg env "client" "endpoint") as [base|]; [|reflexivity].
  unfold cli.ret. cbn [app]. do 2 f_equal.
  revert base. induction actual as [|arg actual IH]; intros base; simpl.
  - now rewrite append_empty.
  - rewrite IH. now rewrite !append_append.
Qed.

Lemma one_argument (f : cli.Signature) (actual : list string) :
  cli.varargs f = None -> length (cli.args f) = 1%nat ->
  (exists a, actual = [a]) \/ cli.accepts f actual = false.
Proof.
  intros Hv Ha. unfold cli.accepts. rewrite Hv, Ha.
  destruct actual as [|a [|b actual]]; eauto.
Qed.

(** X12.  Two commands that never reach the server.  [service_delete],
    called with one argument, raises [NameError] for [service] before it
    does anything; [api_create], called with one argument, raises
    [NameError] for [password] once the URL is built; if no endpoint is
    configured, it raises what [cfg.get] raises: [NoOptionError] when the
    configuration has a section [client], [NoSectionError] when it has
    none.  With any arguments at all, neither command sends a request. *)
Theorem service_delete_and_api_create_send_nothing (actual : list string)
    (env : cli.Env) :
  (forall project,
     cli.wrapped cli.sig_service_delete cli.service_delete [project] env =
     ([], inl (cli.NameError "service"))) /\
  (forall api,
     cli.wrapped cli.sig_api_create cli.api_create [api] env =
     ([], inl (match cli.cfg env "client" "endpoint" with
               | Some _ => cli.NameError "password"
               | None =>
                   if cli.has_section env "client"
                   then cli.NoOptionError "client" "endpoint"
                   else cli.NoSectionError "client"
               end))) /\
  existsb cli.is_request
    (fst (cli.wrapped cli.sig_service_delete cli.service_delete actual env)) =
  false /\
  existsb cli.is_request
    (fst (cli.wrapped cli.sig_api_create cli.api_create actual env)) = false.
Proof.
  assert (forall project,
            cli.wrapped cli.sig_service_delete cli.service_delete [project] env =
            ([], inl (cli.NameError "service"))) as Hd by reflexivity.
  assert (forall api,
            cli.wrapped cli.sig_api_create cli.api_create [api] env =
            ([], inl (match cli.cfg env "client" "endpoint" with
                      | Some _ => cli.NameError "password"
                      | None =>
                          if cli.has_section env "client"
                          then cli.NoOptionError "client" "endpoint"
                          else cli.NoSectionError "client"
                      end))) as Hc.
  { intros api.
    unfold cli.wrapped, cli.try_except_TypeError, cli.call.
    cbn [cli.accepts cli.sig_api_create cli.varargs cli.args length Nat.eqb].
    unfold cli.api_create, cli.mbind at 1. rewrite object_url_eval.
    destruct (cli.cfg env "client" "endpoint"); [reflexivity|].
    destruct (cli.has_section env "client"); reflexivity. }
  repeat split; auto.
  - destruct (one_argument cli.sig_service_delete actual eq_refl eq_refl)
      as [[a ->]|Hacc].
    + now rewrite Hd.
    + rewrite wrapped_wrong_count; [reflexivity | simpl; tauto | assumption].
  - destruct (one_argument cli.sig_api_create actual eq_refl eq_refl)
      as [[a ->]|Hacc].
    + now rewrite Hc.
    + rewrite wrapped_wrong_count; [reflexivity | simpl; tauto | assumption].
Qed.

(** What [check_status_code] writes for a response. *)
Lemma check_status_code_eval (response : cli.Response) (env : cli.Env) :
  cli.check_status_code response env =
  (if (200 <=? cli.status_code response)%Z && (cli.status_code response <? 300)%Z
   then [cli.stdout_write (cli.text response ++ cli.nl)]
   else [cli.stderr_write ("Unexpected status code: " ++
                           cli.format_d (cli.status_code response) ++ cli.nl);
         cli.stderr_write ("Response text:" ++ cli.nl);
         cli.stderr_write (cli.text response ++ cli.nl)], inr tt).
Proof.
  unfold cli.check_status_code.
  destruct (Z.ltb_spec (cli.status_code response) 200),
           (Z.geb_spec (cli.status_code response) 300),
           (Z.leb_spec 200 (cli.status_code response)),
           (Z.ltb_spec (cli.status_code response) 300);
    try lia; reflexivity.
Qed.

(** X13.  The command [service_create] with its four arguments and an
    endpoint [base] configured: it sends one PUT to
    [base/service/<quoted name>] with the three fields.  On a reply with a
    status from 200 to 299 it writes the text of the reply to standard
    output; on any other status it writes the status and the text to
    standard error; in both cases it returns normally.  When the request
    itself raises, the exception goes through and nothing is written,
    unless it is a [TypeError], which the decorator takes for a wrong
    number of arguments: it then writes the usage and returns normally. *)
Theorem service_create_command
    (service service_type api endpoint base : string) (env : cli.Env) :
  cli.cfg env "client" "endpoint" = Some base ->
  cli.wrapped cli.sig_service_create cli.service_create
    [service; service_type; api; endpoint] env =
  let url := base ++ "/service/" ++ cli.quote service in
  let data := [("service_type", service_type); ("api", api);
               ("endpoint", endpoint)] in
  match cli.put_reply env url data with
  | inr response =>
      (cli.requests_put url data ::
       (if (200 <=? cli.status_code response)%Z &&
           (cli.status_code response <? 300)%Z
        then [cli.stdout_write (cli.text response ++ cli.nl)]
        else [cli.stderr_write ("Unexpected status code: " ++
                                cli.format_d (cli.status_code response) ++
                                cli.nl);
              cli.stderr_write ("Response text:" ++ cli.nl);
              cli.stderr_write (cli.text response ++ cli.nl)]), inr tt)
  | inl cli.TypeError =>
      (cli.requests_put url data ::
       cli.stderr_write ("Wrong number of arguements.  Usage:" ++ cli.nl) ::
       cli.help_lines cli.sig_service_create, inr tt)
  | inl e => ([cli.requests_put url data], inl e)
  end.
Proof.
  intros Hcfg.
  unfold cli.wrapped, cli.try_except_TypeError, cli.call.
  cbn [cli.accepts cli.sig_service_create cli.varargs cli.args length Nat.eqb].
  unfold cli.service_create, cli.mbind at 1. rewrite object_url_eval, Hcfg.
  cbn [cli.segments]. rewrite append_empty.
  change (cli.quote "service") with "service".
  replace (base ++ "/" ++ "service" ++ "/" ++ cli.quote service)
    with (base ++ "/service/" ++ cli.quote service) by reflexivity.
  cbv zeta.
  unfold cli.mbind at 1, cli.put, cli.mbind at 1, cli.emit at 1.
  unfold cli.mbind at 1, cli.ask, cli.lift.
  destruct (cli.put_reply env _ _) as [e|response]; cbn [app].
  - destruct e; reflexivity.
  - rewrite check_status_code_eval. reflexivity.
Qed.

Lemma service_create_command_witness :
  cli.wrapped cli.sig_service_create cli.service_create
    ["a/b c"; "compute"; "a"; "http://h/"] (cli.env_ok []) =
  ([cli.requests_put "http://127.0.0.1:5000/service/a%2Fb%20c"
      [("service_type", "compute"); ("api", "a"); ("endpoint", "http://h/")];
    cli.stdout_write ("ok" ++ cli.nl)], inr tt).
Proof.
  apply (service_create_command "a/b c" "compute" "a" "http://h/"
           "http://127.0.0.1:5000" (cli.env_ok [])).
  reflexivity.
Defined.

(** X14.  The command [api_delete] with its argument and an endpoint
    [base] configured: it sends one DELETE to [base/api/<quoted name>] and
    reports the reply as [service_create] does.  Without an endpoint
    configured, both commands raise what [cfg.get] raises and send
    nothing: [NoOptionError] when the configuration has a section
    [client], [NoSectionError] when it has none. *)
Theorem api_delete_command (api : string) (env : cli.Env) :
  (forall base,
     cli.cfg env "client" "endpoint" = Some base ->
     cli.wrapped cli.sig_api_delete cli.api_delete [api] env =
     let url := base ++ "/api/" ++ cli.quote api in
     match cli.delete_reply env url with
     | inr response =>
         (cli.requests_delete url ::
          (if (200 <=? cli.status_code response)%Z &&
              (cli.status_code response <? 300)%Z
           then [cli.stdout_write (cli.text response ++ cli.nl)]
           else [cli.stderr_write ("Unexpected status code: " ++
                                   cli.format_d (cli.status_code response) ++
                                   cli.nl);
                 cli.stderr_write ("Response text:" ++ cli.nl);
                 cli.stderr_write (cli.text response ++ cli.nl)]), inr tt)
     | inl cli.TypeError =>
         (cli.requests_delete url ::
          cli.stderr_write ("Wrong number of arguements.  Usage:" ++ cli.nl) ::
          cli.help_lines cli.sig_api_delete, inr tt)
     | inl e => ([cli.requests_delete url], inl e)
     end) /\
  (cli.cfg env "client" "endpoint" = None ->
   let e := if cli.has_section env "client"
            then cli.NoOptionError "client" "endpoint"
            else cli.NoSectionError "client" in
   cli.wrapped cli.sig_api_delete cli.api_delete [api] env = ([], inl e) /\
   forall service service_type api' endpoint,
     cli.wrapped cli.sig_service_create cli.service_create
       [service; service_type; api'; endpoint] env = ([], inl e)).
Proof.
  split.
  - intros base Hcfg.
    unfold cli.wrapped, cli.try_except_TypeError, cli.call.
    cbn [cli.accepts cli.sig_api_delete cli.varargs cli.args length Nat.eqb].
    unfold cli.api_delete, cli.mbind at 1. rewrite object_url_eval, Hcfg.
    cbn [cli.segments]. rewrite append_empty.
    change (cli.quote "api") with "api".
    replace (base ++ "/" ++ "api" ++ "/" ++ cli.quote api)
      with (base ++ "/api/" ++ cli.quote api) by reflexivity.
    cbv zeta.
    unfold cli.mbind at 1, cli.delete, cli.mbind at 1, cli.emit at 1.
    unfold cli.mbind at 1, cli.ask, cli.lift.
    destruct (cli.delete_reply env _) as [e|response]; cbn [app].
    + destruct e; reflexivity.
    + rewrite check_status_code_eval. reflexivity.
  - intros Hcfg e. split; [|intros service service_type api' endpoint];
      unfold cli.wrapped, cli.try_except_TypeError, cli.call;
      cbn [cli.accepts cli.sig_api_delete cli.sig_service_create cli.varargs
           cli.args length Nat.eqb];
      unfold cli.api_delete, cli.service_create, cli.mbind at 1;
      rewrite object_url_eval, Hcfg; subst e;
      destruct (cli.has_section env "client"); reflexivity.
Qed.

Lemma api_delete_command_witness :
  cli.wrapped cli.sig_api_delete cli.api_delete ["a~%"] (cli.env_ok []) =
  ([cli.requests_delete "http://127.0.0.1:5000/api/a%7E%25";
    cli.stdout_write ("ok" ++ cli.nl)], inr tt) /\
  cli.wrapped cli.sig_api_delete cli.api_delete ["a"] (cli.env_empty []) =
  ([], inl (cli.NoSectionError "client")) /\
  cli.wrapped cli.sig_api_delete cli.api_delete ["a"] (cli.env_no_endpoint []) =
  ([], inl (cli.NoOptionError "client" "endpoint")).
Proof.
  split; [|split].
  - apply (proj1 (api_delete_command "a~%" (cli.env_ok []))
             "http://127.0.0.1:5000").
    reflexivity.
  - apply (proj2 (api_delete_command "a" (cli.env_empty []))). reflexivity.
  - apply (proj2 (api_delete_command "a" (cli.env_no_endpoint []))).
    reflexivity.
Defined.

(* ================================================================== *)
(** ** The command line tool: names in URLs *)
(* ================================================================== *)

Lemma count_char_append (c : ascii) (u v : string) :
  cli.count_char c (u ++ v) = (cli.count_char c u + cli.count_char c v)%nat.
Proof.
  induction u as [|d u IH]; simpl; [reflexivity|]. rewrite IH. lia.
Qed.

Lemma list_ascii_append (u v : string) :
  list_ascii_of_string (u ++ v) =
  (list_ascii_of_string u ++ list_ascii_of_string v)%list.
Proof. induction u as [|d u IH]; simpl; [reflexivity | now rewrite IH]. Qed.

(** A quoted byte is made of unreserved characters and "%". *)
Lemma quote_byte_alphabet (c : ascii) :
  forallb (fun d => cli.always_safe d || Ascii.eqb d "%")
          (list_ascii_of_string (cli.quote_byte c)) = true /\
  cli.count_char "/" (cli.quote_byte c) = 0%nat.
Proof.
  destruct c as [[] [] [] [] [] [] [] []]; split; reflexivity.
Qed.

Lemma quote_alphabet (s : string) :
  forallb (fun d => cli.always_safe d || Ascii.eqb d "%")
          (list_ascii_of_string (cli.quote s)) = true /\
  cli.count_char "/" (cli.quote s) = 0%nat.
Proof.
  induction s as [|c s [IH1 IH2]]; [split; reflexivity|].
  destruct (quote_byte_alphabet c) as [H1 H2].
  cbn [cli.quote]. rewrite list_ascii_append, forallb_app, count_char_append.
  rewrite H1, H2, IH1, IH2. split; reflexivity.
Qed.

Lemma segments_slashes (actual : list string) :
  cli.count_char "/" (cli.segments actual) = length actual.
Proof.
  induction actual as [|arg actual IH]; [reflexivity|].
  cbn [cli.segments length]. rewrite !count_char_append, IH.
  rewrite (proj2 (quote_alphabet arg)). reflexivity.
Qed.

(** X15.  Names stay in their path segment.  With an endpoint [base]
    configured, [object_url] returns [base] followed by one "/" and the
    quoted argument for each argument, in order.  A quoted argument is made
    of letters, digits, "_", ".", "-" and "%" only, so the URL has exactly
    one "/" more than [base] for each argument, whatever the arguments
    contain. *)
Theorem object_url_segments (actual : list string) (base : string)
    (env : cli.Env) :
  cli.cfg env "client" "endpoint" = Some base ->
  cli.object_url actual env = ([], inr (base ++ cli.segments actual)) /\
  cli.count_char "/" (base ++ cli.segments actual) =
  (cli.count_char "/" base + length actual)%nat /\
  (forall arg,
     forallb (fun d => cli.always_safe d || Ascii.eqb d "%")
             (list_ascii_of_string (cli.quote arg)) = true) /\
  (forall arg, cli.count_char "/" (cli.quote arg) = 0%nat).
Proof.
  intros Hcfg. rewrite object_url_eval, Hcfg.
  rewrite count_char_append, segments_slashes.
  repeat split; intros arg; apply quote_alphabet.
Qed.

Lemma object_url_segments_witness :
  cli.object_url ["service"; "a/b"; "../x"] (cli.env_ok []) =
  ([], inr ("http://127.0.0.1:5000" ++ cli.segments ["service"; "a/b"; "../x"])) /\
  cli.count_char "/"
    ("http://127.0.0.1:5000" ++ cli.segments ["service"; "a/b"; "../x"]) =
  (cli.count_char "/" "http://127.0.0.1:5000" + 3)%nat.
Proof.
  destruct (object_url_segments ["service"; "a/b"; "../x"]
              "http://127.0.0.1:5000" (cli.env_ok []) eq_refl) as [H1 [H2 _]].
  split; [exact H1 | exact H2].
Defined.

Lemma hex_digit_inj (a b : nat) :
  (a < 16)%nat -> (b < 16)%nat -> cli.hex_digit a = cli.hex_digit b -> a = b.
Proof.
  intros Ha Hb H.
  do 16 (destruct a as [|a];
         [do 16 (destruct b as [|b];
                 [first [reflexivity | discriminate H]|]); exfalso; lia|]).
  exfalso. lia.
Qed.

Lemma quote_byte_cases (c : ascii) :
  (cli.always_safe c = true /\ cli.quote_byte c = String c EmptyString) \/
  (cli.always_safe c = false /\
   cli.quote_byte c =
   String "%" (String (cli.hex_digit (nat_of_ascii c / 16))
                 (String (cli.hex_digit (nat_of_ascii c mod 16)) EmptyString))).
Proof.
  unfold cli.quote_byte. destruct (cli.always_safe c); auto.
Qed.

Lemma hex_pair_inj (c d : ascii) :
  cli.hex_digit (nat_of_ascii c / 16) = cli.hex_digit (nat_of_ascii d / 16) ->
  cli.hex_digit (nat_of_ascii c mod 16) = cli.hex_digit (nat_of_ascii d mod 16) ->
  c = d.
Proof.
  intros Hq Hr.
  pose proof (nat_ascii_bounded c) as Bc. pose proof (nat_ascii_bounded d) as Bd.
  apply hex_digit_inj in Hq;
    [| apply Nat.Div0.div_lt_upper_bound; lia
     | apply Nat.Div0.div_lt_upper_bound; lia].
  apply hex_digit_inj in Hr; [| apply Nat.mod_upper_bound; lia
                              | apply Nat.mod_upper_bound; lia].
  rewrite <- (ascii_nat_embedding c), <- (ascii_nat_embedding d).
  f_equal.
  rewrite (Nat.div_mod_eq (nat_of_ascii c) 16), (Nat.div_mod_eq (nat_of_ascii d) 16).
  now rewrite Hq, Hr.
Qed.

Lemma quote_inj (s1 s2 : string) : cli.quote s1 = cli.quote s2 -> s1 = s2.
Proof.
  revert s2. induction s1 as [|c1 s1 IH]; intros [|c2 s2]; cbn [cli.quote].
  - reflexivity.
  - destruct (quote_byte_cases c2) as [[_ ->]|[_ ->]]; discriminate.
  - destruct (quote_byte_cases c1) as [[_ ->]|[_ ->]]; discriminate.
  - destruct (quote_byte_cases c1) as [[S1 ->]|[S1 ->]],
             (quote_byte_cases c2) as [[S2 ->]|[S2 ->]]; simpl; intros H.
    + injection H as -> H. f_equal. now apply IH.
    + injection H as -> _. discriminate S1.
    + injection H as <- _. discriminate S2.
    + injection H as Hq Hr H. f_equal; [now apply hex_pair_inj | now apply IH].
Qed.

(** Where a segment ends: two strings without "/" followed by text that
    is empty or starts with "/". *)
Lemma split_at_slash (u1 u2 t1 t2 : string) :
  cli.count_char "/" u1 = 0%nat -> cli.count_char "/" u2 = 0%nat ->
  (t1 = "" \/ exists r, t1 = String "/" r) ->
  (t2 = "" \/ exists r, t2 = String "/" r) ->
  u1 ++ t1 = u2 ++ t2 -> u1 = u2 /\ t1 = t2.
Proof.
  revert u2. induction u1 as [|d1 u1 IH]; intros [|d2 u2] C1 C2 T1 T2 H;
    cbn [append cli.count_char] in *.
  - auto.
  - exfalso. destruct T1 as [->|[r ->]]; [discriminate|].
    injection H as <- _. rewrite Ascii.eqb_refl in C2. discriminate C2.
  - exfalso. destruct T2 as [->|[r ->]]; [discriminate|].
    injection H as -> _. rewrite Ascii.eqb_refl in C1. discriminate C1.
  - injection H as -> H.
    destruct (Ascii.eqb "/" d2); [discriminate C1|]. 
    destruct (IH u2 C1 C2 T1 T2 H) as [-> ->]. auto.
Qed.

Lemma segments_start (actual : list string) :
  cli.segments actual = "" \/ exists r, cli.segments actual = String "/" r.
Proof. destruct actual; simpl; eauto. Qed.

Lemma segments_inj (a1 a2 : list string) :
  cli.segments a1 = cli.segments a2 -> a1 = a2.
Proof.
  revert a2. induction a1 as [|x a1 IH]; intros [|y a2]; simpl; intros H;
    try discriminate; [reflexivity|].
  injection H as H.
  apply split_at_slash in H as [Hq Hs];
    try apply quote_alphabet; try apply segments_start.
  f_equal; [now apply quote_inj | now apply IH].
Qed.

Lemma append_cancel (u v w : string) : u ++ v = u ++ w -> v = w.
Proof.
  induction u as [|c u IH]; simpl; intros H; [assumption|].
  injection H as H. now apply IH.
Qed.

(** X16.  Different names, different URLs.  [urllib.quote] with no safe
    character is one-to-one, and so is [object_url]: in one configuration,
    two calls that give the same URL were given the same arguments, the
    same number of them and each one equal. *)
Theorem object_url_one_to_one (a1 a2 : list string) (url : string)
    (env : cli.Env) :
  cli.object_url a1 env = ([], inr url) ->
  cli.object_url a2 env = ([], inr url) ->
  a1 = a2.
Proof.
  rewrite !object_url_eval.
  destruct (cli.cfg env "client" "endpoint") as [base|]; [|discriminate].
  intros H1 H2. injection H1 as <-. injection H2 as H2.
  apply append_cancel in H2. symmetry. now apply segments_inj.
Qed.

Lemma object_url_one_to_one_witness :
  ["service"; "a/b"] = ["service"; "a/b"].
Proof.
  apply (object_url_one_to_one ["service"; "a/b"] ["service"; "a/b"]
           "http://127.0.0.1:5000/service/a%2Fb" (cli.env_ok []));
    reflexivity.
Defined.
